(** * Halo / Flash Guardian: the flash detector

    A shallow embedding of [class FlashDetector] (the content script of the
    extension) and the properties of its frame classification: metric
    extraction, the stride and warmup filters, dark-frame suppression, the
    two sliding windows and the one-shot warning latch.

    Numbers are JavaScript Numbers.  Luminance and red saturation are
    binary64 values and are modelled by Rocq's primitive floats, so that
    [0 / 0] is NaN and the decimal literals of the source denote the same
    doubles.  Counters hold small non-negative integers and are modelled by
    [N]; timestamps are the integer milliseconds of [Date.now()] and are
    modelled by [Z]. *)

From Stdlib Require Import ZArith NArith List Bool Lia.
From Stdlib Require Import PrimFloat.
From Stdlib Require Uint63.
Import ListNotations.

Set Warnings "-inexact-float".

(** ** JavaScript Number operations used by the detector *)

Module JS.

(** The relational operators on Numbers: every comparison with NaN is
    false. *)
Definition lt (x y : float) : bool :=
  match PrimFloat.compare x y with FLt => true | _ => false end.

Definition gt (x y : float) : bool :=
  match PrimFloat.compare x y with FGt => true | _ => false end.

Definition le (x y : float) : bool :=
  match PrimFloat.compare x y with FLt | FEq => true | _ => false end.

Definition ge (x y : float) : bool :=
  match PrimFloat.compare x y with FGt | FEq => true | _ => false end.

(** [Math.abs]. *)
Definition Math_abs (x : float) : float := PrimFloat.abs x.

(** [Math.max] of two Numbers: NaN if either is NaN, and [+0] is larger
    than [-0] (the sum of two equal zeros is the larger one). *)
Definition Math_max (x y : float) : float :=
  if is_nan x || is_nan y then nan
  else match PrimFloat.compare x y with
       | FLt => y
       | FGt => x
       | _ => if is_zero x then PrimFloat.add x y else x
       end.

(** [ToNumber] of a value that is either a Number or [null]. *)
Definition ToNumber (o : option float) : float :=
  match o with
  | Some x => x
  | None => 0%float
  end.

(** An integer as a Number (exact below 2^53). *)
Definition ofZ (z : Z) : float := PrimFloat.of_uint63 (Uint63.of_Z z).

End JS.

(** ** Detection parameters (set once by the constructor) *)

Definition LUMINANCE_THRESHOLD : float := 0.1%float.
Definition RED_THRESHOLD : float := 0.8%float.
Definition FLASH_FREQUENCY : N := 3.
Definition DETECTION_WINDOW : Z := 1000.
Definition MIN_BRIGHTNESS : float := 0.05%float.
Definition WARMUP_FRAMES : N := 10.
Definition skipFrames : N := 2.

(** ** Metric extraction *)

(** [data[i]] of a [Uint8ClampedArray] read as a Number: an index past the
    end reads [undefined], which is NaN in arithmetic and makes every
    comparison false. *)
Definition channel (data : list Z) (i : nat) : float :=
  match nth_error data i with
  | Some v => JS.ofZ v
  | None => nan
  end.

Section Metrics.

(** [Math.pow] is implementation-approximated in ECMAScript; the metric
    functions take it as a parameter. *)
Variable Math_pow : float -> float -> float.

(** sRGB to linear light. *)
Definition linear (c : float) : float :=
  if JS.le c 0.03928%float then (c / 12.92)%float
  else Math_pow ((c + 0.055) / 1.055)%float 2.4%float.

(** The body of the sampling loop of [calculateLuminance] at index [i]. *)
Definition pixelLuminance (data : list Z) (i : nat) : float :=
  let r := (channel data i / 255)%float in
  let g := (channel data (i + 1) / 255)%float in
  let b := (channel data (i + 2) / 255)%float in
  (0.2126 * linear r + 0.7152 * linear g + 0.0722 * linear b)%float.

(** [for (let i = 0; i < data.length; i += 16)], with the remaining
    iterations bounded by [fuel]. *)
Fixpoint luminanceLoop (data : list Z) (fuel i : nat) (totalLuminance : float)
  : float :=
  match fuel with
  | O => totalLuminance
  | S fuel' =>
      if (i <? length data)%nat
      then luminanceLoop data fuel' (i + 16)
             (totalLuminance + pixelLuminance data i)%float
      else totalLuminance
  end.

Definition calculateLuminance (data : list Z) : float :=
  let pixelCount := (JS.ofZ (Z.of_nat (length data)) / 4)%float in
  let totalLuminance := luminanceLoop data (length data) 0 0%float in
  (totalLuminance / (pixelCount / 4))%float.

End Metrics.

(** Saturated red: [r > 200 && g < 100 && b < 100]. *)
Definition saturatedRed (data : list Z) (i : nat) : bool :=
  JS.gt (channel data i) 200%float
  && JS.lt (channel data (i + 1)) 100%float
  && JS.lt (channel data (i + 2)) 100%float.

Fixpoint redLoop (data : list Z) (fuel i : nat) (redSaturation : float) : float :=
  match fuel with
  | O => redSaturation
  | S fuel' =>
      if (i <? length data)%nat
      then redLoop data fuel' (i + 16)
             (if saturatedRed data i then (redSaturation + 1)%float
              else redSaturation)
      else redSaturation
  end.

Definition calculateRedSaturation (data : list Z) : float :=
  let pixelCount := (JS.ofZ (Z.of_nat (length data)) / 4)%float in
  let redSaturation := redLoop data (length data) 0 0%float in
  (redSaturation / (pixelCount / 4))%float.

(** ** The detector object *)

(** The two attributes of the video element that the detector reads. *)
Record Video := { paused : bool; ended : bool }.

Record FlashDetector := {
  video : Video;
  prevLuminance : option float;
  prevRedSaturation : option float;
  flashTimestamps : list Z;
  redFlashTimestamps : list Z;
  isAnalyzing : bool;
  warningShown : bool;
  frameCount : N;
  analyzedFrameCount : N;
  totalFlashes : N;
  maxFlashesPerSecond : N
}.

(** Field assignments. *)
Definition set_video (v : Video) (d : FlashDetector) : FlashDetector :=
  {| video := v; prevLuminance := prevLuminance d;
     prevRedSaturation := prevRedSaturation d;
     flashTimestamps := flashTimestamps d;
     redFlashTimestamps := redFlashTimestamps d;
     isAnalyzing := isAnalyzing d; warningShown := warningShown d;
     frameCount := frameCount d; analyzedFrameCount := analyzedFrameCount d;
     totalFlashes := totalFlashes d;
     maxFlashesPerSecond := maxFlashesPerSecond d |}.

Definition set_prev (l r : option float) (d : FlashDetector) : FlashDetector :=
  {| video := video d; prevLuminance := l; prevRedSaturation := r;
     flashTimestamps := flashTimestamps d;
     redFlashTimestamps := redFlashTimestamps d;
     isAnalyzing := isAnalyzing d; warningShown := warningShown d;
     frameCount := frameCount d; analyzedFrameCount := analyzedFrameCount d;
     totalFlashes := totalFlashes d;
     maxFlashesPerSecond := maxFlashesPerSecond d |}.

Definition set_flashTimestamps (ts : list Z) (d : FlashDetector) : FlashDetector :=
  {| video := video d; prevLuminance := prevLuminance d;
     prevRedSaturation := prevRedSaturation d;
     flashTimestamps := ts;
     redFlashTimestamps := redFlashTimestamps d;
     isAnalyzing := isAnalyzing d; warningShown := warningShown d;
     frameCount := frameCount d; analyzedFrameCount := analyzedFrameCount d;
     totalFlashes := totalFlashes d;
     maxFlashesPerSecond := maxFlashesPerSecond d |}.

Definition set_redFlashTimestamps (ts : list Z) (d : FlashDetector)
  : FlashDetector :=
  {| video := video d; prevLuminance := prevLuminance d;
     prevRedSaturation := prevRedSaturation d;
     flashTimestamps := flashTimestamps d;
     redFlashTimestamps := ts;
     isAnalyzing := isAnalyzing d; warningShown := warningShown d;
     frameCount := frameCount d; analyzedFrameCount := analyzedFrameCount d;
     totalFlashes := totalFlashes d;
     maxFlashesPerSecond := maxFlashesPerSecond d |}.

Definition set_isAnalyzing (b : bool) (d : FlashDetector) : FlashDetector :=
  {| video := video d; prevLuminance := prevLuminance d;
     prevRedSaturation := prevRedSaturation d;
     flashTimestamps := flashTimestamps d;
     redFlashTimestamps := redFlashTimestamps d;
     isAnalyzing := b; warningShown := warningShown d;
     frameCount := frameCount d; analyzedFrameCount := analyzedFrameCount d;
     totalFlashes := totalFlashes d;
     maxFlashesPerSecond := maxFlashesPerSecond d |}.

Definition set_warningShown (b : bool) (d : FlashDetector) : FlashDetector :=
  {| video := video d; prevLuminance := prevLuminance d;
     prevRedSaturation := prevRedSaturation d;
     flashTimestamps := flashTimestamps d;
     redFlashTimestamps := redFlashTimestamps d;
     isAnalyzing := isAnalyzing d; warningShown := b;
     frameCount := frameCount d; analyzedFrameCount := analyzedFrameCount d;
     totalFlashes := totalFlashes d;
     maxFlashesPerSecond := maxFlashesPerSecond d |}.

Definition set_frameCount (n : N) (d : FlashDetector) : FlashDetector :=
  {| video := video d; prevLuminance := prevLuminance d;
     prevRedSaturation := prevRedSaturation d;
     flashTimestamps := flashTimestamps d;
     redFlashTimestamps := redFlashTimestamps d;
     isAnalyzing := isAnalyzing d; warningShown := warningShown d;
     frameCount := n; analyzedFrameCount := analyzedFrameCount d;
     totalFlashes := totalFlashes d;
     maxFlashesPerSecond := maxFlashesPerSecond d |}.

Definition set_analyzedFrameCount (n : N) (d : FlashDetector) : FlashDetector :=
  {| video := video d; prevLuminance := prevLuminance d;
     prevRedSaturation := prevRedSaturation d;
     flashTimestamps := flashTimestamps d;
     redFlashTimestamps := redFlashTimestamps d;
     isAnalyzing := isAnalyzing d; warningShown := warningShown d;
     frameCount := frameCount d; analyzedFrameCount := n;
     totalFlashes := totalFlashes d;
     maxFlashesPerSecond := maxFlashesPerSecond d |}.

Definition set_totalFlashes (n : N) (d : FlashDetector) : FlashDetector :=
  {| video := video d; prevLuminance := prevLuminance d;
     prevRedSaturation := prevRedSaturation d;
     flashTimestamps := flashTimestamps d;
     redFlashTimestamps := redFlashTimestamps d;
     isAnalyzing := isAnalyzing d; warningShown := warningShown d;
     frameCount := frameCount d; analyzedFrameCount := analyzedFrameCount d;
     totalFlashes := n;
     maxFlashesPerSecond := maxFlashesPerSecond d |}.

Definition set_maxFlashesPerSecond (n : N) (d : FlashDetector) : FlashDetector :=
  {| video := video d; prevLuminance := prevLuminance d;
     prevRedSaturation := prevRedSaturation d;
     flashTimestamps := flashTimestamps d;
     redFlashTimestamps := redFlashTimestamps d;
     isAnalyzing := isAnalyzing d; warningShown := warningShown d;
     frameCount := frameCount d; analyzedFrameCount := analyzedFrameCount d;
     totalFlashes := totalFlashes d;
     maxFlashesPerSecond := n |}.

(** [new FlashDetector(video)]. *)
Definition constructor (v : Video) : FlashDetector :=
  {| video := v; prevLuminance := None; prevRedSaturation := None;
     flashTimestamps := []; redFlashTimestamps := [];
     isAnalyzing := false; warningShown := false;
     frameCount := 0; analyzedFrameCount := 0;
     totalFlashes := 0; maxFlashesPerSecond := 0 |}.

(** What one call of [analyzeFrame] reads from its environment once the
    frame has been captured: [Date.now()], the two metrics of the captured
    image and [video.currentTime]. *)
Record Frame := {
  currentTime : Z;
  currentLuminance : float;
  currentRedSaturation : float;
  position : float
}.

(** Lines 112-117 of [analyzeFrame]: the metrics of a captured image. *)
Definition sample (Math_pow : float -> float -> float) (data : list Z)
    (now : Z) (pos : float) : Frame :=
  {| currentTime := now;
     currentLuminance := calculateLuminance Math_pow data;
     currentRedSaturation := calculateRedSaturation data;
     position := pos |}.

(** The [detail] of the [flashDetected] event. *)
Inductive WarningType := general | red.

Record Warning := {
  type : WarningType;
  flashCount : N;
  w_maxFlashesPerSecond : N;
  w_totalFlashes : N;
  timestamp : float
}.

(** [triggerWarning(type, flashCount)]: latched by [warningShown]; pauses the
    video and dispatches the event.  (The two statistics messages to the
    background page are not part of the detector's state.) *)
Definition triggerWarning (d : FlashDetector) (ty : WarningType) (count : N)
    (pos : float) : FlashDetector * option Warning :=
  if warningShown d then (d, None)
  else
    let d1 := set_warningShown true d in
    let d2 := set_video {| paused := true; ended := ended (video d1) |} d1 in
    (d2, Some {| type := ty; flashCount := count;
                 w_maxFlashesPerSecond := maxFlashesPerSecond d2;
                 w_totalFlashes := totalFlashes d2;
                 timestamp := pos |}).

(** The filter of both windows: [t => currentTime - t <= DETECTION_WINDOW]. *)
Definition inWindow (now t : Z) : bool := (now - t <=? DETECTION_WINDOW)%Z.

(** [analyzeFrame()].  The argument is [None] when capturing the frame
    throws (the [catch] logs and goes on).  The result is the detector after
    the call and the warning dispatched by it, if any.  Rescheduling with
    [requestAnimationFrame] is left to the caller of the model. *)
Definition analyzeFrame (d : FlashDetector) (f : option Frame)
  : FlashDetector * option Warning :=
  if paused (video d) || ended (video d) then (d, None)
  else
    let d := set_frameCount (frameCount d + 1) d in
    if negb (frameCount d mod skipFrames =? 0)%N then (d, None)
    else
      match f with
      | None => (d, None)
      | Some fr =>
          let cur := currentLuminance fr in
          let curRed := currentRedSaturation fr in
          let now := currentTime fr in
          let d := set_analyzedFrameCount (analyzedFrameCount d + 1) d in
          if (analyzedFrameCount d <=? WARMUP_FRAMES)%N
          then (set_prev (Some cur) (Some curRed) d, None)
          else if JS.lt cur MIN_BRIGHTNESS
                  || match prevLuminance d with
                     | Some p => JS.lt p MIN_BRIGHTNESS
                     | None => false
                     end
          then (set_prev (Some cur) (Some curRed) d, None)
          else
            let (d, w) :=
              match prevLuminance d with
              | None => (d, None)
              | Some p =>
                  let luminanceChange := JS.Math_abs (cur - p)%float in
                  let relativeLuminanceChange :=
                    (luminanceChange / JS.Math_max p 0.01)%float in
                  let bothFramesBright :=
                    JS.gt cur MIN_BRIGHTNESS && JS.gt p MIN_BRIGHTNESS in
                  let absoluteChangeSignificant :=
                    JS.gt luminanceChange 0.05%float in
                  let d :=
                    if JS.gt relativeLuminanceChange LUMINANCE_THRESHOLD
                       && bothFramesBright && absoluteChangeSignificant
                    then set_totalFlashes (totalFlashes d + 1)
                           (set_flashTimestamps (flashTimestamps d ++ [now]) d)
                    else d in
                  let redChange :=
                    JS.Math_abs
                      (curRed - JS.ToNumber (prevRedSaturation d))%float in
                  let d :=
                    if JS.gt redChange RED_THRESHOLD && bothFramesBright
                    then set_redFlashTimestamps
                           (redFlashTimestamps d ++ [now]) d
                    else d in
                  let d :=
                    set_flashTimestamps
                      (filter (inWindow now) (flashTimestamps d)) d in
                  let d :=
                    set_redFlashTimestamps
                      (filter (inWindow now) (redFlashTimestamps d)) d in
                  let d :=
                    set_maxFlashesPerSecond
                      (N.max (maxFlashesPerSecond d)
                             (N.of_nat (length (flashTimestamps d)))) d in
                  if (FLASH_FREQUENCY <=? N.of_nat (length (flashTimestamps d)))%N
                  then triggerWarning d general
                         (N.of_nat (length (flashTimestamps d))) (position fr)
                  else if (FLASH_FREQUENCY
                           <=? N.of_nat (length (redFlashTimestamps d)))%N
                  then triggerWarning d red
                         (N.of_nat (length (redFlashTimestamps d))) (position fr)
                  else (d, None)
              end in
            (set_prev (Some cur) (Some curRed) d, w)
      end.

(** [resetDetectionState()]. *)
Definition resetDetectionState (d : FlashDetector) : FlashDetector :=
  set_analyzedFrameCount 0
    (set_redFlashTimestamps []
       (set_flashTimestamps [] (set_prev None None d))).

(** [start()]: it ends by analysing a first frame itself. *)
Definition start (d : FlashDetector) (f : option Frame)
  : FlashDetector * option Warning :=
  if isAnalyzing d then (d, None)
  else
    analyzeFrame
      (resetDetectionState
         (set_maxFlashesPerSecond 0
            (set_totalFlashes 0
               (set_warningShown false (set_isAnalyzing true d))))) f.

(** [stop()]. *)
Definition stop (d : FlashDetector) : FlashDetector := set_isAnalyzing false d.

(** [resetWarning()]. *)
Definition resetWarning (d : FlashDetector) : FlashDetector :=
  resetDetectionState (set_warningShown false d).

(** ** Sequences of calls *)

(** What can happen to a detector: its methods, and the page or the user
    changing the state of the video element. *)
Inductive Call :=
| AnalyzeFrame (f : option Frame)
| Start (f : option Frame)
| Stop
| ResetDetectionState
| ResetWarning
| VideoState (v : Video).

Definition call (d : FlashDetector) (c : Call) : FlashDetector * option Warning :=
  match c with
  | AnalyzeFrame f => analyzeFrame d f
  | Start f => start d f
  | Stop => (stop d, None)
  | ResetDetectionState => (resetDetectionState d, None)
  | ResetWarning => (resetWarning d, None)
  | VideoState v => (set_video v d, None)
  end.

Definition emit (w : option Warning) (ws : list Warning) : list Warning :=
  match w with
  | Some x => x :: ws
  | None => ws
  end.

(** The detector after a sequence of calls and the warnings dispatched on
    the way, in order. *)
Fixpoint run (d : FlashDetector) (cs : list Call) : FlashDetector * list Warning :=
  match cs with
  | [] => (d, [])
  | c :: cs' =>
      let (d1, w) := call d c in
      let (d2, ws) := run d1 cs' in
      (d2, emit w ws)
  end.

Definition analyzeFrames (d : FlashDetector) (fs : list (option Frame))
  : FlashDetector * list Warning :=
  run d (map AnalyzeFrame fs).

(** The calls that clear the warning latch. *)
Definition clearsLatch (c : Call) : bool :=
  match c with
  | Start _ | ResetWarning => true
  | _ => false
  end.

(** ** The paths through [analyzeFrame] *)

(** The conditions of the source, named after its local variables. *)

(** The call gets past the [paused]/[ended] test and the frame skipping. *)
Definition proceeds (d : FlashDetector) : bool :=
  negb (paused (video d) || ended (video d))
  && ((frameCount d + 1) mod skipFrames =? 0)%N.

(** The test of the "ignore very dark frames" early return. *)
Definition darkGuard (cur : float) (prev : option float) : bool :=
  JS.lt cur MIN_BRIGHTNESS
  || match prev with
     | Some p => JS.lt p MIN_BRIGHTNESS
     | None => false
     end.

Definition luminanceChange (cur p : float) : float :=
  JS.Math_abs (cur - p)%float.

Definition relativeLuminanceChange (cur p : float) : float :=
  (luminanceChange cur p / JS.Math_max p 0.01)%float.

Definition bothFramesBright (cur p : float) : bool :=
  JS.gt cur MIN_BRIGHTNESS && JS.gt p MIN_BRIGHTNESS.

Definition redChange (curRed : float) (prevRed : option float) : float :=
  JS.Math_abs (curRed - JS.ToNumber prevRed)%float.

(** The condition under which a timestamp is pushed on [flashTimestamps]. *)
Definition generalFlash (cur p : float) : bool :=
  JS.gt (relativeLuminanceChange cur p) LUMINANCE_THRESHOLD
  && bothFramesBright cur p
  && JS.gt (luminanceChange cur p) 0.05%float.

(** The condition under which a timestamp is pushed on
    [redFlashTimestamps]. *)
Definition redFlash (curRed : float) (prevRed : option float) (cur p : float)
  : bool :=
  JS.gt (redChange curRed prevRed) RED_THRESHOLD && bothFramesBright cur p.

Definition pushIf (b : bool) (ts : list Z) (now : Z) : list Z :=
  if b then ts ++ [now] else ts.

(** The detector after a frame has been stored as the previous one without
    being classified (warmup, dark frame, or no previous frame). *)
Definition stored (d : FlashDetector) (fr : Frame) : FlashDetector :=
  set_prev (Some (currentLuminance fr)) (Some (currentRedSaturation fr))
    (set_analyzedFrameCount (analyzedFrameCount d + 1)
       (set_frameCount (frameCount d + 1) d)).

(** The detector after the two pushes, the two filters and the update of
    the maximum, before the threshold test. *)
Definition counted (d : FlashDetector) (fr : Frame) (p : float) : FlashDetector :=
  let now := currentTime fr in
  let g := generalFlash (currentLuminance fr) p in
  let r := redFlash (currentRedSaturation fr) (prevRedSaturation d)
             (currentLuminance fr) p in
  let ft := filter (inWindow now) (pushIf g (flashTimestamps d) now) in
  {| video := video d; prevLuminance := prevLuminance d;
     prevRedSaturation := prevRedSaturation d;
     flashTimestamps := ft;
     redFlashTimestamps :=
       filter (inWindow now) (pushIf r (redFlashTimestamps d) now);
     isAnalyzing := isAnalyzing d; warningShown := warningShown d;
     frameCount := frameCount d + 1;
     analyzedFrameCount := analyzedFrameCount d + 1;
     totalFlashes := if g then totalFlashes d + 1 else totalFlashes d;
     maxFlashesPerSecond :=
       N.max (maxFlashesPerSecond d) (N.of_nat (length ft)) |}.

(** The threshold test at the end of the classification. *)
Definition verdict (c : FlashDetector) (pos : float)
  : FlashDetector * option Warning :=
  if (FLASH_FREQUENCY <=? N.of_nat (length (flashTimestamps c)))%N
  then triggerWarning c general (N.of_nat (length (flashTimestamps c))) pos
  else if (FLASH_FREQUENCY <=? N.of_nat (length (redFlashTimestamps c)))%N
  then triggerWarning c red (N.of_nat (length (redFlashTimestamps c))) pos
  else (c, None).

(** Which way a call of [analyzeFrame] goes. *)
Inductive Path :=
| Idle
| Skipped
| Threw
| Stored (fr : Frame)
| Classified (fr : Frame) (p : float).

Definition path (d : FlashDetector) (f : option Frame) : Path :=
  if paused (video d) || ended (video d) then Idle
  else if negb ((frameCount d + 1) mod skipFrames =? 0)%N then Skipped
  else
    match f with
    | None => Threw
    | Some fr =>
        if (analyzedFrameCount d + 1 <=? WARMUP_FRAMES)%N then Stored fr
        else if darkGuard (currentLuminance fr) (prevLuminance d) then Stored fr
        else
          match prevLuminance d with
          | None => Stored fr
          | Some p => Classified fr p
          end
    end.

Definition outcome (d : FlashDetector) (pa : Path)
  : FlashDetector * option Warning :=
  match pa with
  | Idle => (d, None)
  | Skipped | Threw => (set_frameCount (frameCount d + 1) d, None)
  | Stored fr => (stored d fr, None)
  | Classified fr p =>
      let (c, w) := verdict (counted d fr p) (position fr) in
      (set_prev (Some (currentLuminance fr)) (Some (currentRedSaturation fr)) c,
       w)
  end.


(** ** What the properties are about *)

(** [d] holds the metrics [p] and [r] of a previous analysed frame, its
    warmup is over and its next call is analysed: the frame of that call is
    the current frame of a compared pair. *)
Definition compared (d : FlashDetector) (p r : float) : Prop :=
  proceeds d = true
  /\ (WARMUP_FRAMES <= analyzedFrameCount d)%N
  /\ prevLuminance d = Some p
  /\ prevRedSaturation d = Some r.

(** The call that took [d] to [d'] recorded a general flash at [now]: it was
    appended to the general window and counted. *)
Definition generalRecorded (d d' : FlashDetector) (now : Z) : Prop :=
  flashTimestamps d' = filter (inWindow now) (flashTimestamps d ++ [now])
  /\ totalFlashes d' = (totalFlashes d + 1)%N.

(** The call that took [d] to [d'] recorded no general flash at [now]:
    nothing was appended to the general window, which is as it was or as
    the filter left it, and nothing was counted. *)
Definition generalUnrecorded (d d' : FlashDetector) (now : Z) : Prop :=
  (flashTimestamps d' = flashTimestamps d
   \/ flashTimestamps d' = filter (inWindow now) (flashTimestamps d))
  /\ totalFlashes d' = totalFlashes d.


(** The general-flash rule with the dark-frame guard as its only brightness
    condition. *)
Definition generalRuleByGuard (d : FlashDetector) (fr : Frame) (p r : float)
  : Prop :=
  compared d p r ->
  (generalRecorded d (fst (analyzeFrame d (Some fr))) (currentTime fr) <->
   darkGuard (currentLuminance fr) (Some p) = false
   /\ JS.gt (relativeLuminanceChange (currentLuminance fr) p)
             LUMINANCE_THRESHOLD = true
   /\ JS.gt (luminanceChange (currentLuminance fr) p) 0.05%float = true).


(** Every timestamp of both windows of [d] is at most [DETECTION_WINDOW]
    older than [now]. *)
Definition windowsWithin (now : Z) (d : FlashDetector) : Prop :=
  Forall (fun t => (now - t <= DETECTION_WINDOW)%Z) (flashTimestamps d)
  /\ Forall (fun t => (now - t <= DETECTION_WINDOW)%Z) (redFlashTimestamps d).

(** The call reaches the classification and with it the two filters. *)
Definition classifies (d : FlashDetector) (f : option Frame) : bool :=
  match path d f with
  | Classified _ _ => true
  | _ => false
  end.



(** A Number that is neither NaN nor infinite. *)
Definition isFinite (x : float) : bool := negb (is_nan x || is_infinity x).

(** The call records a general flash. *)
Definition generalEvent (d : FlashDetector) (f : option Frame) : bool :=
  match path d f with
  | Classified fr p => generalFlash (currentLuminance fr) p
  | _ => false
  end.

(** The call records a red flash. *)
Definition redEvent (d : FlashDetector) (f : option Frame) : bool :=
  match path d f with
  | Classified fr p =>
      redFlash (currentRedSaturation fr) (prevRedSaturation d)
        (currentLuminance fr) p
  | _ => false
  end.

(** An empty frame has luminance 0 and red saturation ratio 0, both
    finite. *)
Definition emptyFrameIsZero (Math_pow : float -> float -> float) : Prop :=
  calculateLuminance Math_pow [] = 0%float
  /\ calculateRedSaturation [] = 0%float
  /\ isFinite (calculateLuminance Math_pow []) = true
  /\ isFinite (calculateRedSaturation []) = true.

(** The calls that neither clear the latch nor touch the video element. *)
Definition keepsWarned (c : Call) : bool :=
  match c with
  | AnalyzeFrame _ | Stop | ResetDetectionState => true
  | _ => false
  end.

(** The detection state: the two windows, the two counters and the metrics
    of the previous frame. *)
Definition detectionState (d : FlashDetector)
  : list Z * list Z * N * N * option float * option float :=
  (flashTimestamps d, redFlashTimestamps d, totalFlashes d,
   maxFlashesPerSecond d, prevLuminance d, prevRedSaturation d).

(** The latch as a freeze: from a latched detector [d], after calls [cs]
    none of which clears the latch, a call of [analyzeFrame] leaves the
    detection state as it found it. *)
Definition frozenWhileLatched (d : FlashDetector) (cs : list Call)
    (f : option Frame) : Prop :=
  warningShown d = true ->
  Forall (fun c => clearsLatch c = false) cs ->
  detectionState (fst (analyzeFrame (fst (run d cs)) f))
  = detectionState (fst (run d cs)).

(** ** Test material *)

Definition playing : Video := {| paused := false; ended := false |}.

Definition frame (now : Z) (lum redSat : float) : option Frame :=
  Some {| currentTime := now; currentLuminance := lum;
          currentRedSaturation := redSat; position := 0%float |}.


(** A detector on a playing video that has just completed its warmup on
    frames of luminance [lum] and red saturation [redSat]: [start()] and 20
    further calls, of which every second one is analysed.  Its next call is
    analysed. *)
Definition warmedUp (lum redSat : float) : FlashDetector :=
  fst (run (constructor playing)
         (Start (frame 0 lum redSat)
          :: repeat (AnalyzeFrame (frame 0 lum redSat)) 20)).

(** A frame of luminance 0.5. *)
Definition redFrame (now : Z) (redSat : float) : Frame :=
  {| currentTime := now; currentLuminance := 0.5;
     currentRedSaturation := redSat; position := 0 |}.

(** Red saturation going 0.9, 0, 0.9 at constant luminance within 200 ms,
    after a warmup on red saturation 0; every other call is skipped. *)
Definition redAlternation : list (option Frame) :=
  [Some (redFrame 100 0.9); None; Some (redFrame 200 0); None;
   Some (redFrame 300 0.9)]%float.

(** A detector whose general window holds one flash, at 100 ms. *)
Definition flashedOnce : FlashDetector :=
  fst (analyzeFrames (warmedUp 0.5 0)
         [frame 100 0.9 0; frame 150 0.9 0]%float).

(** A frame below the minimum brightness, five seconds later. *)
Definition darkFrame : Frame :=
  {| currentTime := 5000; currentLuminance := 0.01;
     currentRedSaturation := 0; position := 5 |}.

(** A bright and fully red frame at 100 ms. *)
Definition brightRedFrame : Frame :=
  {| currentTime := 100; currentLuminance := 0.9;
     currentRedSaturation := 0.9; position := 0 |}.

(** After the red alternation has dispatched its warning: the video is
    resumed behind the detector's back, a seek resets the detection state
    and the red alternation comes again, twice over. *)
Definition latchedCalls : list Call :=
  map AnalyzeFrame redAlternation
  ++ [VideoState playing; ResetDetectionState]
  ++ repeat (AnalyzeFrame (Some (redFrame 400 0))) 21
  ++ map AnalyzeFrame (redAlternation ++ redAlternation).

(** The detector two red transitions into the red alternation. *)
Definition beforeWarning : FlashDetector :=
  fst (analyzeFrames (warmedUp 0.5 0) (firstn 4 redAlternation)).

(** The detector right after the red alternation has dispatched its
    warning: latched, its video paused. *)
Definition warned : FlashDetector :=
  fst (analyzeFrames (warmedUp 0.5 0) redAlternation).

(** The video plays again without a call of [start()] or [resetWarning()];
    the next call is skipped. *)
Definition resumed : list Call := [VideoState playing; AnalyzeFrame None].

(** A frame of luminance 0.5 and red saturation 0 at time 0. *)
Definition plainFrame : Frame := redFrame 0 0.


(** ** Further properties of the detector: what they are about *)

(** [d] is ready to compare, has no warning latched, the general window
    [gts] and at most [k] timestamps in the red window. *)
Definition armed (d : FlashDetector) (p r : float) (gts : list Z) (k : nat)
  : Prop :=
  compared d p r
  /\ warningShown d = false
  /\ flashTimestamps d = gts
  /\ (length (redFlashTimestamps d) <= k)%nat.

(** Timestamps in increasing order, more than 500 ms apart, none after
    [T]. *)
Fixpoint gapped (T : Z) (ts : list Z) : Prop :=
  match ts with
  | [] => True
  | t :: ts' =>
      (t <= T)%Z /\ Forall (fun u => (t + 500 < u)%Z) ts' /\ gapped T ts'
  end.

(** Along the calls [fs] from [d], every classified frame comes more than
    500 ms after [T] and after the classified frame before it. *)
Fixpoint slow (T : Z) (d : FlashDetector) (fs : list (option Frame)) : Prop :=
  match fs with
  | [] => True
  | f :: fs' =>
      match path d f with
      | Classified fr _ =>
          (T + 500 < currentTime fr)%Z
          /\ slow (currentTime fr) (fst (analyzeFrame d f)) fs'
      | _ => slow T (fst (analyzeFrame d f)) fs'
      end
  end.

(** The bytes that the two sampling loops read: the red, green and blue
    channel of every fourth pixel. *)
Definition sampledByte (i : nat) : bool := (i mod 16 <? 3)%nat.

(** A frame of luminance [lum] without saturated red. *)
Definition lumFrame (now : Z) (lum : float) : Frame :=
  {| currentTime := now; currentLuminance := lum;
     currentRedSaturation := 0; position := 0 |}.

(** Luminance alternating between 0.9 and 0.1 from one analysed frame to
    the next, 600 ms apart; every other call is skipped. *)
Definition slowStrobe : list (option Frame) :=
  [Some (lumFrame 1000 0.9); None; Some (lumFrame 1600 0.1); None;
   Some (lumFrame 2200 0.9); None; Some (lumFrame 2800 0.1); None;
   Some (lumFrame 3400 0.9); None; Some (lumFrame 4000 0.1)].

(** The statistics never under-report the general window nor exceed the
    count of all general flashes. *)
Definition statisticsConsistent (d : FlashDetector) : Prop :=
  (N.of_nat (length (flashTimestamps d)) <= maxFlashesPerSecond d)%N
  /\ (maxFlashesPerSecond d <= totalFlashes d)%N.

(** Five pixels, of which the two loops sample the first and the fifth. *)
Definition fivePixels : list Z :=
  [250; 10; 20; 255;  1; 2; 3; 255;  4; 5; 6; 255;  7; 8; 9; 255;
   30; 40; 50; 255]%Z.

(** The same two sampled pixels among other pixels and other alpha
    values. *)
Definition fivePixelsOtherwise : list Z :=
  [250; 10; 20; 0;  255; 255; 255; 0;  0; 0; 0; 0;  99; 98; 97; 96;
   30; 40; 50; 128]%Z.

(** * The background service worker and the popup

    The statistics kept in [chrome.storage], the platform of a URL and the
    tabs tracked per platform (the Halo service worker), the earlier
    service worker that kept the statistics in sync storage only, and the
    popup's reset button. *)

From Stdlib Require String Ascii.

Module Background.

Import String.
Local Open Scope string_scope.

(** ** The platform of a URL *)

(** The keys of [platformMatchers], in the order in which
    [Object.entries] lists them. *)
Inductive Platform := youtube | tiktok | twitter | instagram | twitch.

(** A regular expression without anchors and flags that is an alternation
    of literal strings, as the five of [platformMatchers] are. *)
Definition Regex := list string.

Definition platformMatchers : list (Platform * Regex) :=
  [(youtube, ["youtube.com"]);
   (tiktok, ["tiktok.com"]);
   (twitter, ["twitter.com"; "x.com"]);
   (instagram, ["instagram.com"]);
   (twitch, ["twitch.tv"])].

(** The literal [lit] occurs somewhere in [s]. *)
Fixpoint occursIn (lit s : string) : bool :=
  if prefix lit s then true
  else
    match s with
    | EmptyString => false
    | String _ s' => occursIn lit s'
    end.

(** [regex.test(url)]. *)
Definition test (regex : Regex) (url : string) : bool :=
  existsb (fun lit => occursIn lit url) regex.

(** [getPlatformFromUrl(url)]; [None] is a URL that is [undefined] or
    [null], and the result [None] is [null]. *)
Definition getPlatformFromUrl (url : option string) : option Platform :=
  match url with
  | None => None
  | Some u =>
      if (u =? "")%string then None
      else
        match find (fun entry => test (snd entry) u) platformMatchers with
        | Some entry => Some (fst entry)
        | None => None
        end
  end.

(** ** The statistics in storage *)

Record Stats := {
  videosMonitored : N;
  warningsIssued : N;
  flashesDetected : N
}.

Definition zeroStats : Stats :=
  {| videosMonitored := 0; warningsIssued := 0; flashesDetected := 0 |}.

(** The three keys that the extension keeps in a storage area; [None] is a
    key that is not set.  The same record is the object passed to
    [set(items)], which writes the keys it holds and leaves the others. *)
Record Area := {
  enabled : option bool;
  autoPause : option bool;
  stats : option Stats
}.

Definition noItems : Area :=
  {| enabled := None; autoPause := None; stats := None |}.

Definition orElse {A : Type} (x y : option A) : option A :=
  match x with
  | Some _ => x
  | None => y
  end.

(** [chrome.storage.<area>.set(items)]. *)
Definition setItems (items area : Area) : Area :=
  {| enabled := orElse (enabled items) (enabled area);
     autoPause := orElse (autoPause items) (autoPause area);
     stats := orElse (stats items) (stats area) |}.

Definition statsItem (st : Stats) : Area :=
  {| enabled := None; autoPause := None; stats := Some st |}.

(** [chrome.storage.local] and [chrome.storage.sync]. *)
Record Storage := {
  localArea : Area;
  syncArea : Area
}.

(** A message to the service worker. *)
Record Request := {
  action : string;
  stat : string;
  count : option N
}.

(** [request.count || 1]. *)
Definition countOrOne (c : option N) : N :=
  match c with
  | Some n => if (n =? 0)%N then 1%N else n
  | None => 1%N
  end.

(** [data.stats || { videosMonitored: 0, ... }]. *)
Definition statsOrZero (a : Area) : Stats :=
  match stats a with
  | Some st => st
  | None => zeroStats
  end.

(** The three updates of the message listener, one after the other. *)
Definition applyUpdate (st : Stats) (request : Request) : Stats :=
  let st :=
    if (stat request =? "videoMonitored")%string
    then {| videosMonitored := videosMonitored st + 1;
            warningsIssued := warningsIssued st;
            flashesDetected := flashesDetected st |}
    else st in
  let st :=
    if (stat request =? "warningIssued")%string
    then {| videosMonitored := videosMonitored st;
            warningsIssued := warningsIssued st + 1;
            flashesDetected := flashesDetected st |}
    else st in
  if (stat request =? "flashDetected")%string
  then {| videosMonitored := videosMonitored st;
          warningsIssued := warningsIssued st;
          flashesDetected := flashesDetected st + countOrOne (count request) |}
  else st.

(** The response [{ success: true, stats }]. *)
Record Response := {
  success : bool;
  responseStats : Stats
}.

(** The [onMessage] listener of the Halo service worker, once its turn in
    [updateQueue] has come: it reads the statistics from local storage and
    saves the updated ones to both areas. *)
Definition onMessage (s : Storage) (request : Request)
  : Storage * option Response :=
  if (action request =? "updateStats")%string
  then
    let st := applyUpdate (statsOrZero (localArea s)) request in
    ({| localArea := setItems (statsItem st) (localArea s);
        syncArea := setItems (statsItem st) (syncArea s) |},
     Some {| success := true; responseStats := st |})
  else (s, None).

(** The messages in the order in which [updateQueue] chains them. *)
Definition onMessages (s : Storage) (requests : list Request) : Storage :=
  fold_left (fun s request => fst (onMessage s request)) requests s.

(** [resetStats()]. *)
Definition resetStats (s : Storage) : Storage :=
  {| localArea := setItems (statsItem zeroStats) (localArea s);
     syncArea := setItems (statsItem zeroStats) (syncArea s) |}.

Definition defaultSettings : Area :=
  {| enabled := Some true; autoPause := Some true; stats := Some zeroStats |}.

(** The [updates] object that the [onInstalled] listener builds on an
    update of the extension. *)
Definition updatesOnUpdate (s : Storage) : Area :=
  {| enabled := match enabled (syncArea s) with
                | None => Some true
                | Some _ => None
                end;
     autoPause := match autoPause (syncArea s) with
                  | None => Some true
                  | Some _ => None
                  end;
     stats := match stats (syncArea s), stats (localArea s) with
              | None, None => Some zeroStats
              | _, Some st => Some st
              | Some _, None => None
              end |}.

(** The [onInstalled] listener of the Halo service worker, for
    [details.reason]. *)
Definition onInstalled (reason : string) (s : Storage) : Storage :=
  if (reason =? "install")%string
  then {| localArea := setItems defaultSettings (localArea s);
          syncArea := setItems defaultSettings (syncArea s) |}
  else if (reason =? "update")%string
  then
    let updates := updatesOnUpdate s in
    {| localArea := match stats updates with
                    | Some st => setItems (statsItem st) (localArea s)
                    | None => localArea s
                    end;
       syncArea := setItems updates (syncArea s) |}
  else s.

(** ** The earlier service worker *)

(** Its [onMessage] listener in two steps, since it does not queue: the
    callback of [chrome.storage.sync.get] hands over the statistics read,
    and [chrome.storage.sync.set] saves the updated ones. *)
Definition earlierRead (s : Storage) : Stats := statsOrZero (syncArea s).

Definition earlierWrite (read : Stats) (request : Request) (s : Storage)
  : Storage :=
  {| localArea := localArea s;
     syncArea := setItems (statsItem (applyUpdate read request)) (syncArea s) |}.

Definition earlierOnMessage (s : Storage) (request : Request) : Storage :=
  if (action request =? "updateStats")%string
  then earlierWrite (earlierRead s) request s
  else s.

(** ** The popup *)

(** The click on the reset button: it writes to sync storage. *)
Definition popupResetStats (s : Storage) : Storage :=
  {| localArea := localArea s;
     syncArea := setItems (statsItem zeroStats) (syncArea s) |}.

(** The statistics that the popup shows: those of sync storage, if any. *)
Definition popupStats (s : Storage) : option Stats := stats (syncArea s).

(** ** The tabs of each platform *)

Definition Platform_eqb (p q : Platform) : bool :=
  match p, q with
  | youtube, youtube | tiktok, tiktok | twitter, twitter
  | instagram, instagram | twitch, twitch => true
  | _, _ => false
  end.

(** A [Set] of tab ids, in insertion order. *)
Definition TabSet := list Z.

Definition has (tabs : TabSet) (tabId : Z) : bool :=
  existsb (Z.eqb tabId) tabs.

Definition add (tabId : Z) (tabs : TabSet) : TabSet :=
  if has tabs tabId then tabs else (tabs ++ [tabId])%list.

Definition delete (tabId : Z) (tabs : TabSet) : TabSet :=
  filter (fun t => negb (t =? tabId)%Z) tabs.

(** [platformTabs]: one set per platform. *)
Definition PlatformTabs := Platform -> TabSet.

Definition noTabs : PlatformTabs := fun _ => [].

(** [platformTabs[platform].add(tabId)] when [platform] is not [null]. *)
Definition addTo (platform : option Platform) (tabId : Z)
    (tabs : PlatformTabs) : PlatformTabs :=
  match platform with
  | Some p => fun q => if Platform_eqb q p then add tabId (tabs q) else tabs q
  | None => tabs
  end.

(** The URL is a non-empty string. *)
Definition truthy (url : option string) : bool :=
  match url with
  | Some u => negb (u =? "")%string
  | None => false
  end.

(** What [chrome.tabs.onUpdated] reports. *)
Record ChangeInfo := {
  status : option string;
  url : option string
}.

(** The [onUpdated] listener; [tabUrl] is [tab.url]. *)
Definition onUpdated (tabs : PlatformTabs) (tabId : Z)
    (changeInfo : ChangeInfo) (tabUrl : option string) : PlatformTabs :=
  let tabs :=
    if match status changeInfo with
       | Some st => (st =? "complete")%string
       | None => false
       end
       && truthy tabUrl
    then addTo (getPlatformFromUrl tabUrl) tabId tabs
    else tabs in
  if truthy (url changeInfo)
  then
    let newPlatform := getPlatformFromUrl (url changeInfo) in
    let tabs : PlatformTabs :=
      fun platform =>
        if has (tabs platform) tabId
           && negb match newPlatform with
                   | Some p => Platform_eqb platform p
                   | None => false
                   end
        then delete tabId (tabs platform)
        else tabs platform in
    addTo newPlatform tabId tabs
  else tabs.

(** The [onActivated] listener, when [chrome.tabs.get] calls back;
    [tabUrl] is [None] when there is no tab or no URL. *)
Definition onActivated (tabs : PlatformTabs) (tabId : Z)
    (tabUrl : option string) : PlatformTabs :=
  if truthy tabUrl then addTo (getPlatformFromUrl tabUrl) tabId tabs
  else tabs.

(** The [onRemoved] listener. *)
Definition onRemoved (tabs : PlatformTabs) (tabId : Z) : PlatformTabs :=
  fun platform =>
    if has (tabs platform) tabId then delete tabId (tabs platform)
    else tabs platform.

(** What happens to the tabs. *)
Inductive TabEvent :=
| Updated (tabId : Z) (changeInfo : ChangeInfo) (tabUrl : option string)
| Activated (tabId : Z) (tabUrl : option string)
| Removed (tabId : Z).

Definition onTabEvent (tabs : PlatformTabs) (e : TabEvent) : PlatformTabs :=
  match e with
  | Updated tabId changeInfo tabUrl => onUpdated tabs tabId changeInfo tabUrl
  | Activated tabId tabUrl => onActivated tabs tabId tabUrl
  | Removed tabId => onRemoved tabs tabId
  end.

End Background.

(** * The content script around the detector *)

Module ContentScript.

Import String.
Local Open Scope string_scope.

(** The message of [initializeDetector]. *)
Definition videoMonitored : Background.Request :=
  {| Background.action := "updateStats";
     Background.stat := "videoMonitored";
     Background.count := None |}.

(** The two messages of [triggerWarning]. *)
Definition warningIssued : Background.Request :=
  {| Background.action := "updateStats";
     Background.stat := "warningIssued";
     Background.count := None |}.

Definition flashDetected (totalFlashes : N) : Background.Request :=
  {| Background.action := "updateStats";
     Background.stat := "flashDetected";
     Background.count := Some totalFlashes |}.

(** What [triggerWarning] sends before it dispatches the warning [w]: the
    second message carries [this.totalFlashes]. *)
Definition warningRequests (w : Warning) : list Background.Request :=
  [warningIssued; flashDetected (w_totalFlashes w)].

(** The [detectors] map, keyed by video element (numbered here), and the
    videos for which a [loadedmetadata] listener is waiting, once per
    listener. *)
Record Page := {
  detectors : list (nat * FlashDetector);
  waiting : list nat
}.

Definition emptyPage : Page := {| detectors := []; waiting := [] |}.

(** [detectors.has(video)]. *)
Definition hasDetector (pg : Page) (video : nat) : bool :=
  existsb (fun entry => Nat.eqb (fst entry) video) (detectors pg).

(** [initializeDetector(video)] for a video element with the given
    [readyState] and state: the page after it and the messages sent. *)
Definition initializeDetector (pg : Page) (video : nat) (readyState : N)
    (v : Video) : Page * list Background.Request :=
  if hasDetector pg video then (pg, [])
  else if (readyState <? 2)%N
  then ({| detectors := detectors pg;
           waiting := (waiting pg ++ [video])%list |}, [])
  else ({| detectors := (detectors pg ++ [(video, constructor v)])%list;
           waiting := waiting pg |},
        [videoMonitored]).

(** A video element as a scan of the document finds it. *)
Record VideoElement := {
  element : nat;
  readyState : N;
  videoState : Video
}.

(** [findAndMonitorVideos()] over the videos of the document. *)
Fixpoint findAndMonitorVideos (pg : Page) (videos : list VideoElement)
  : Page * list Background.Request :=
  match videos with
  | [] => (pg, [])
  | e :: videos' =>
      let (pg1, ms1) :=
        initializeDetector pg (element e) (readyState e) (videoState e) in
      let (pg2, ms2) := findAndMonitorVideos pg1 videos' in
      (pg2, (ms1 ++ ms2)%list)
  end.

(** [n] listeners calling [initializeDetector(video)] in a row. *)
Fixpoint callListeners (n : nat) (pg : Page) (e : VideoElement)
  : Page * list Background.Request :=
  match n with
  | O => (pg, [])
  | S n' =>
      let (pg1, ms1) :=
        initializeDetector pg (element e) (readyState e) (videoState e) in
      let (pg2, ms2) := callListeners n' pg1 e in
      (pg2, (ms1 ++ ms2)%list)
  end.

(** The [loadedmetadata] event of a video: every listener waiting for it
    is removed and called. *)
Definition loadedmetadata (pg : Page) (e : VideoElement)
  : Page * list Background.Request :=
  callListeners (count_occ Nat.eq_dec (waiting pg) (element e))
    {| detectors := detectors pg;
       waiting := List.remove Nat.eq_dec (element e) (waiting pg) |} e.

(** What happens on the page: the document is scanned (at load and on
    every mutation), or a video has loaded its metadata. *)
Inductive PageEvent :=
| Scan (videos : list VideoElement)
| LoadedMetadata (e : VideoElement).

Definition onPageEvent (pg : Page) (ev : PageEvent)
  : Page * list Background.Request :=
  match ev with
  | Scan videos => findAndMonitorVideos pg videos
  | LoadedMetadata e => loadedmetadata pg e
  end.

Fixpoint runPage (pg : Page) (evs : list PageEvent)
  : Page * list Background.Request :=
  match evs with
  | [] => (pg, [])
  | ev :: evs' =>
      let (pg1, ms1) := onPageEvent pg ev in
      let (pg2, ms2) := runPage pg1 evs' in
      (pg2, (ms1 ++ ms2)%list)
  end.

(** One step of the page: the keys of [detectors] stay distinct, and one
    [videoMonitored] message is sent per detector created. *)
Definition monitors (pg pg' : Page) (ms : list Background.Request) : Prop :=
  (NoDup (map fst (detectors pg)) -> NoDup (map fst (detectors pg')))
  /\ List.length (detectors pg')
     = (List.length (detectors pg) + List.length ms)%nat
  /\ Forall (fun m => m = videoMonitored) ms.

End ContentScript.

(** * What the properties of the service worker are about *)

Module Accounting.

Import String.
Import Background.
Local Open Scope string_scope.

(** The number of requests whose [stat] is [name]. *)
Definition tally (name : string) (requests : list Request) : N :=
  N.of_nat (List.length (filter (fun r => stat r =? name) requests)).

(** The flashes that the [flashDetected] requests report, each as
    [count || 1]. *)
Definition flashTally (requests : list Request) : N :=
  fold_right
    (fun r acc =>
       N.add (if (stat r =? "flashDetected")%string
              then countOrOne (count r) else 0%N)
             acc)
    0%N requests.

(** The statistics [st] with the requests counted in. *)
Definition counting (st : Stats) (requests : list Request) : Stats :=
  {| videosMonitored := videosMonitored st + tally "videoMonitored" requests;
     warningsIssued := warningsIssued st + tally "warningIssued" requests;
     flashesDetected := flashesDetected st + flashTally requests |}.

(** Two messages to the earlier service worker of which both are read
    before either is written. *)
Definition bothReadFirst (s : Storage) (r1 r2 : Request) : Storage :=
  earlierWrite (earlierRead s) r2 (earlierWrite (earlierRead s) r1 s).

(** The tab that an event is about. *)
Definition eventTab (e : TabEvent) : Z :=
  match e with
  | Updated tabId _ _ => tabId
  | Activated tabId _ => tabId
  | Removed tabId => tabId
  end.

(** Storage as the earlier service worker leaves it after its
    installation and some messages: statistics in sync storage only. *)
Definition earlierStorage : Storage :=
  {| localArea := noItems;
     syncArea :=
       {| enabled := Some true; autoPause := Some false;
          stats := Some {| videosMonitored := 12; warningsIssued := 3;
                           flashesDetected := 40 |} |} |}.

(** Storage of the Halo service worker in use. *)
Definition usedStorage : Storage :=
  {| localArea :=
       {| enabled := None; autoPause := None;
          stats := Some {| videosMonitored := 7; warningsIssued := 2;
                           flashesDetected := 9 |} |};
     syncArea :=
       {| enabled := Some true; autoPause := Some true;
          stats := Some {| videosMonitored := 7; warningsIssued := 2;
                           flashesDetected := 9 |} |} |}.

End Accounting.

(** ** Proofs *)

Ltac fields :=
  cbn [video prevLuminance prevRedSaturation flashTimestamps redFlashTimestamps
       isAnalyzing warningShown frameCount analyzedFrameCount totalFlashes
       maxFlashesPerSecond set_video set_prev set_flashTimestamps
       set_redFlashTimestamps set_isAnalyzing set_warningShown set_frameCount
       set_analyzedFrameCount set_totalFlashes set_maxFlashesPerSecond
       paused ended fst snd currentTime currentLuminance currentRedSaturation
       position type flashCount w_maxFlashesPerSecond w_totalFlashes timestamp]
    in *.

(** [analyzeFrame] goes the way [path] says. *)
Lemma analyzeFrame_path (d : FlashDetector) (f : option Frame) :
  analyzeFrame d f = outcome d (path d f).
Proof.
  unfold analyzeFrame, path.
  destruct (paused (video d) || ended (video d)); [reflexivity|].
  fields.
  destruct (negb ((frameCount d + 1) mod skipFrames =? 0)%N); [reflexivity|].
  destruct f as [fr|]; [|reflexivity].
  destruct (analyzedFrameCount d + 1 <=? WARMUP_FRAMES)%N; [reflexivity|].
  unfold darkGuard.
  destruct (prevLuminance d) as [p|] eqn:Hp.
  - destruct (JS.lt (currentLuminance fr) MIN_BRIGHTNESS
              || JS.lt p MIN_BRIGHTNESS); [reflexivity|].
    unfold outcome, counted, generalFlash, redFlash, pushIf, bothFramesBright,
      relativeLuminanceChange, luminanceChange, redChange.
    match goal with
    | |- context [if ?b then set_totalFlashes _ _ else _] => destruct b
    end; fields;
    match goal with
    | |- context [if ?b then set_redFlashTimestamps _ _ else _] => destruct b
    end; fields; rewrite <- ?Hp; reflexivity.
  - destruct (JS.lt (currentLuminance fr) MIN_BRIGHTNESS || false);
      reflexivity.
Qed.

Ltac Zify.zify_post_hook ::= Z.to_euclidean_division_equations.

(** *** Comparisons of Numbers *)

Lemma gt_not_lt (x y : float) : JS.gt x y = true -> JS.lt x y = false.
Proof. unfold JS.gt, JS.lt. destruct (PrimFloat.compare x y); congruence. Qed.

Lemma ge_not_lt (x y : float) : JS.ge x y = true -> JS.lt x y = false.
Proof. unfold JS.ge, JS.lt. destruct (PrimFloat.compare x y); congruence. Qed.

Lemma bright_not_dark (cur p : float) :
  bothFramesBright cur p = true -> darkGuard cur (Some p) = false.
Proof.
  unfold bothFramesBright, darkGuard. intros H.
  apply andb_true_iff in H. destruct H as [Hc Hp].
  rewrite (gt_not_lt _ _ Hc), (gt_not_lt _ _ Hp). reflexivity.
Qed.

Lemma dark_not_bright (cur p : float) :
  darkGuard cur (Some p) = true -> bothFramesBright cur p = false.
Proof.
  intros H. destruct (bothFramesBright cur p) eqn:Hb; [|reflexivity].
  rewrite (bright_not_dark _ _ Hb) in H. discriminate.
Qed.

(** Two luminances of at least [MIN_BRIGHTNESS] pass the dark-frame guard. *)
Lemma minimum_not_dark (cur p : float) :
  JS.ge cur MIN_BRIGHTNESS = true -> JS.ge p MIN_BRIGHTNESS = true ->
  darkGuard cur (Some p) = false.
Proof.
  intros Hc Hp. unfold darkGuard.
  rewrite (ge_not_lt _ _ Hc), (ge_not_lt _ _ Hp). reflexivity.
Qed.

(** *** The two windows *)

Lemma inWindow_now (now : Z) : inWindow now now = true.
Proof. unfold inWindow, DETECTION_WINDOW. apply Z.leb_le. lia. Qed.

Lemma filter_push (now : Z) (ts : list Z) :
  filter (inWindow now) (ts ++ [now]) = filter (inWindow now) ts ++ [now].
Proof. rewrite filter_app. cbn [filter]. rewrite inWindow_now. reflexivity. Qed.

Lemma filter_within (now : Z) (ts : list Z) :
  Forall (fun t => (now - t <= DETECTION_WINDOW)%Z) (filter (inWindow now) ts).
Proof.
  apply Forall_forall. intros t Ht. apply filter_In in Ht.
  destruct Ht as [_ Ht]. unfold inWindow in Ht. apply Z.leb_le in Ht. exact Ht.
Qed.

(** *** One call *)

(** The threshold test changes the latch and the video element only. *)
Lemma triggerWarning_state (c : FlashDetector) (ty : WarningType) (n : N)
    (pos : float) :
  let c' := fst (triggerWarning c ty n pos) in
  flashTimestamps c' = flashTimestamps c
  /\ redFlashTimestamps c' = redFlashTimestamps c
  /\ totalFlashes c' = totalFlashes c
  /\ maxFlashesPerSecond c' = maxFlashesPerSecond c
  /\ frameCount c' = frameCount c
  /\ analyzedFrameCount c' = analyzedFrameCount c
  /\ isAnalyzing c' = isAnalyzing c.
Proof.
  unfold triggerWarning. destruct (warningShown c); fields; repeat split.
Qed.

Lemma verdict_state (c : FlashDetector) (pos : float) :
  let c' := fst (verdict c pos) in
  flashTimestamps c' = flashTimestamps c
  /\ redFlashTimestamps c' = redFlashTimestamps c
  /\ totalFlashes c' = totalFlashes c
  /\ maxFlashesPerSecond c' = maxFlashesPerSecond c
  /\ frameCount c' = frameCount c
  /\ analyzedFrameCount c' = analyzedFrameCount c
  /\ isAnalyzing c' = isAnalyzing c.
Proof.
  unfold verdict.
  destruct (FLASH_FREQUENCY <=? N.of_nat (length (flashTimestamps c)))%N;
    [apply triggerWarning_state|].
  destruct (FLASH_FREQUENCY <=? N.of_nat (length (redFlashTimestamps c)))%N;
    [apply triggerWarning_state|].
  fields. repeat split.
Qed.

(** The detector after a classified frame. *)
Lemma classified_state (d : FlashDetector) (fr : Frame) (p : float) :
  let d' := fst (outcome d (Classified fr p)) in
  let c := counted d fr p in
  flashTimestamps d' = flashTimestamps c
  /\ redFlashTimestamps d' = redFlashTimestamps c
  /\ totalFlashes d' = totalFlashes c
  /\ maxFlashesPerSecond d' = maxFlashesPerSecond c
  /\ frameCount d' = frameCount c
  /\ analyzedFrameCount d' = analyzedFrameCount c
  /\ prevLuminance d' = Some (currentLuminance fr)
  /\ prevRedSaturation d' = Some (currentRedSaturation fr).
Proof.
  cbn [outcome].
  pose proof (verdict_state (counted d fr p) (position fr)) as H.
  destruct (verdict (counted d fr p) (position fr)) as [c w].
  fields. destruct H as (H1 & H2 & H3 & H4 & H5 & H6 & _).
  repeat split; assumption.
Qed.

(** The way of the current frame of a compared pair. *)
Lemma compared_path (d : FlashDetector) (fr : Frame) (p r : float) :
  compared d p r ->
  path d (Some fr)
  = if darkGuard (currentLuminance fr) (Some p) then Stored fr
    else Classified fr p.
Proof.
  intros (Ha & Hw & Hp & _). unfold proceeds in Ha.
  apply andb_true_iff in Ha. destruct Ha as [Hv Hs].
  apply negb_true_iff in Hv.
  unfold path. rewrite Hv, Hs. cbn [negb].
  destruct (N.leb_spec (analyzedFrameCount d + 1) WARMUP_FRAMES); [lia|].
  rewrite Hp. reflexivity.
Qed.

Lemma generalFlash_iff (cur p : float) :
  generalFlash cur p = true <->
  JS.gt (relativeLuminanceChange cur p) LUMINANCE_THRESHOLD = true
  /\ JS.gt (luminanceChange cur p) 0.05%float = true
  /\ JS.gt cur MIN_BRIGHTNESS = true
  /\ JS.gt p MIN_BRIGHTNESS = true.
Proof.
  unfold generalFlash, bothFramesBright.
  rewrite !andb_true_iff. tauto.
Qed.


(** Whether the current frame of a compared pair is recorded as a general
    flash is decided by [generalFlash]. *)
Lemma generalRecorded_iff (d : FlashDetector) (fr : Frame) (p r : float) :
  compared d p r ->
  (generalRecorded d (fst (analyzeFrame d (Some fr))) (currentTime fr)
   <-> generalFlash (currentLuminance fr) p = true).
Proof.
  intros Hc. rewrite analyzeFrame_path, (compared_path _ _ _ _ Hc).
  unfold generalRecorded.
  destruct (darkGuard (currentLuminance fr) (Some p)) eqn:Hg.
  - cbn [outcome]. unfold stored. fields.
    assert (Hb := dark_not_bright _ _ Hg).
    unfold generalFlash. rewrite Hb, andb_false_r. cbn [andb].
    split; [intros [_ H]; lia | discriminate].
  - destruct (classified_state d fr p) as (Hf & _ & Ht & _).
    rewrite Hf, Ht. unfold counted. fields.
    destruct (generalFlash (currentLuminance fr) p); cbn [pushIf].
    + split; [reflexivity | intros _; split; reflexivity].
    + split; [intros [_ H]; lia | discriminate].
Qed.

(** When [generalFlash] fails, nothing is appended and nothing counted: a
    pair stopped by the dark-frame guard leaves the general window as it
    was, any other pair leaves what the filter keeps of it. *)
Lemma general_unrecorded_state (d : FlashDetector) (fr : Frame) (p r : float) :
  compared d p r ->
  generalFlash (currentLuminance fr) p = false ->
  flashTimestamps (fst (analyzeFrame d (Some fr)))
  = (if darkGuard (currentLuminance fr) (Some p) then flashTimestamps d
     else filter (inWindow (currentTime fr)) (flashTimestamps d))
  /\ totalFlashes (fst (analyzeFrame d (Some fr))) = totalFlashes d.
Proof.
  intros Hc Hg. rewrite analyzeFrame_path, (compared_path _ _ _ _ Hc).
  destruct (darkGuard (currentLuminance fr) (Some p)).
  - cbn [outcome]. unfold stored. fields. split; reflexivity.
  - destruct (classified_state d fr p) as (Hf & _ & Ht & _).
    rewrite Hf, Ht. unfold counted. fields. rewrite Hg. cbn [pushIf].
    split; reflexivity.
Qed.

Lemma generalUnrecorded_iff (d : FlashDetector) (fr : Frame) (p r : float) :
  compared d p r ->
  (generalUnrecorded d (fst (analyzeFrame d (Some fr))) (currentTime fr)
   <-> generalFlash (currentLuminance fr) p = false).
Proof.
  intros Hc. split.
  - intros [_ Ht].
    destruct (generalFlash (currentLuminance fr) p) eqn:Hg; [|reflexivity].
    apply (generalRecorded_iff d fr p r Hc) in Hg. destruct Hg as [_ Hg].
    rewrite Hg in Ht. lia.
  - intros Hg.
    destruct (general_unrecorded_state d fr p r Hc Hg) as [Hf Ht].
    split; [|exact Ht]. rewrite Hf.
    destruct (darkGuard (currentLuminance fr) (Some p));
      [left | right]; reflexivity.
Qed.


(** The detector [warmedUp lum redSat] is ready to compare. *)
Lemma warmedUp_compared (lum redSat : float) :
  compared (warmedUp lum redSat) lum redSat.
Proof. unfold compared. repeat split. vm_compute. discriminate. Qed.

(** *** General flashes *)

(** C1, as stated, fails where a luminance equals [MIN_BRIGHTNESS]: after a
    warmup on luminance 0.05 a frame of luminance 0.9 passes the dark-frame
    guard and both delta tests, and yet no general flash is recorded. *)
Lemma general_rule_by_guard_fails :
  ~ generalRuleByGuard (warmedUp 0.05 0) brightRedFrame 0.05 0.
Proof.
  unfold generalRuleByGuard. intros H.
  destruct (H (warmedUp_compared _ _)) as [_ H'].
  assert (Hr : generalRecorded (warmedUp 0.05 0)
                 (fst (analyzeFrame (warmedUp 0.05 0) (Some brightRedFrame)))
                 (currentTime brightRedFrame)).
  { apply H'. repeat split; vm_compute; reflexivity. }
  destruct Hr as [_ Hr]. vm_compute in Hr. discriminate.
Qed.

(** C1 (amended): for the current frame of every compared pair, a general
    flash is recorded (appended to the general window and counted) if and
    only if the relative luminance change exceeds 0.10, the absolute change
    exceeds 0.05 and both luminances are strictly greater than 0.05.  In
    every other case no general event is recorded: nothing is counted and
    nothing is appended to the general window, which is left as it was when
    the dark-frame guard returns and is only filtered otherwise.  Two
    luminances above 0.05 never trigger the dark-frame guard, and a pair
    whose two deltas are both below threshold records nothing. *)
Theorem general_flash_recorded_iff (d : FlashDetector) (fr : Frame)
    (p r : float) :
  compared d p r ->
  let cur := currentLuminance fr in
  let now := currentTime fr in
  let d' := fst (analyzeFrame d (Some fr)) in
  let rule :=
    JS.gt (relativeLuminanceChange cur p) LUMINANCE_THRESHOLD = true
    /\ JS.gt (luminanceChange cur p) 0.05%float = true
    /\ JS.gt cur MIN_BRIGHTNESS = true
    /\ JS.gt p MIN_BRIGHTNESS = true in
  (generalRecorded d d' now <-> rule)
  /\ (generalUnrecorded d d' now <-> ~ rule)
  /\ (~ rule ->
      totalFlashes d' = totalFlashes d
      /\ flashTimestamps d'
         = if darkGuard cur (Some p) then flashTimestamps d
           else filter (inWindow now) (flashTimestamps d))
  /\ (JS.gt cur MIN_BRIGHTNESS = true -> JS.gt p MIN_BRIGHTNESS = true ->
      darkGuard cur (Some p) = false)
  /\ (JS.gt (relativeLuminanceChange cur p) LUMINANCE_THRESHOLD = false ->
      JS.gt (luminanceChange cur p) 0.05%float = false ->
      generalUnrecorded d d' now /\ ~ generalRecorded d d' now).
Proof.
  intros Hc cur now d' rule. subst cur now d' rule.
  pose proof (generalRecorded_iff d fr p r Hc) as Hiff.
  pose proof (generalUnrecorded_iff d fr p r Hc) as Hun.
  pose proof (general_unrecorded_state d fr p r Hc) as Hst.
  rewrite generalFlash_iff in Hiff.
  rewrite <- not_true_iff_false, generalFlash_iff in Hun.
  split; [exact Hiff|]. split; [exact Hun|]. split; [|split].
  - intros Hn. rewrite <- generalFlash_iff in Hn.
    apply not_true_iff_false in Hn. destruct (Hst Hn) as [Hf Ht].
    split; assumption.
  - intros H1 H2. apply bright_not_dark. unfold bothFramesBright.
    rewrite H1, H2. reflexivity.
  - intros H1 _.
    assert (Hn : ~ (JS.gt (relativeLuminanceChange (currentLuminance fr) p)
                      LUMINANCE_THRESHOLD = true
                    /\ JS.gt (luminanceChange (currentLuminance fr) p)
                         0.05%float = true
                    /\ JS.gt (currentLuminance fr) MIN_BRIGHTNESS = true
                    /\ JS.gt p MIN_BRIGHTNESS = true))
      by (intros [H _]; congruence).
    split; [apply Hun; exact Hn|].
    intros Hrec. apply Hiff in Hrec. exact (Hn Hrec).
Qed.

(** The rule of C1 at work: after a warmup on luminance 0.5 a frame of
    luminance 0.9 is recorded. *)
Lemma general_flash_recorded_iff_witness :
  compared (warmedUp 0.5 0) 0.5 0
  /\ generalRecorded (warmedUp 0.5 0)
       (fst (analyzeFrame (warmedUp 0.5 0) (Some brightRedFrame)))
       (currentTime brightRedFrame).
Proof.
  split; [apply warmedUp_compared|].
  destruct (general_flash_recorded_iff (warmedUp 0.5 0) brightRedFrame 0.5 0
              (warmedUp_compared _ _)) as [H _].
  apply H. repeat split; vm_compute; reflexivity.
Defined.

(** *** Sequences of frames *)

Lemma analyzeFrames_cons (d : FlashDetector) (f : option Frame)
    (fs : list (option Frame)) :
  analyzeFrames d (f :: fs)
  = (fst (analyzeFrames (fst (analyzeFrame d f)) fs),
     emit (snd (analyzeFrame d f))
       (snd (analyzeFrames (fst (analyzeFrame d f)) fs))).
Proof.
  unfold analyzeFrames. cbn [map run call].
  destruct (analyzeFrame d f) as [d1 w]. cbn [fst snd].
  destruct (run d1 (map AnalyzeFrame fs)) as [d2 ws]. reflexivity.
Qed.

Lemma run_app (d : FlashDetector) (cs1 cs2 : list Call) :
  run d (cs1 ++ cs2)
  = (fst (run (fst (run d cs1)) cs2),
     snd (run d cs1) ++ snd (run (fst (run d cs1)) cs2)).
Proof.
  revert d. induction cs1 as [|c cs1 IH]; intros d.
  - cbn [app run fst snd]. destruct (run d cs2). reflexivity.
  - cbn [app run]. destruct (call d c) as [d1 w]. rewrite IH.
    destruct (run d1 cs1) as [d2 ws]. cbn [fst snd].
    destruct w; reflexivity.
Qed.

Lemma analyzeFrames_app (d : FlashDetector) (fs gs : list (option Frame)) :
  analyzeFrames d (fs ++ gs)
  = (fst (analyzeFrames (fst (analyzeFrames d fs)) gs),
     snd (analyzeFrames d fs) ++ snd (analyzeFrames (fst (analyzeFrames d fs)) gs)).
Proof. unfold analyzeFrames. rewrite map_app. apply run_app. Qed.

(** A call that is skipped on a playing video only counts. *)
Lemma analyzeFrame_skipped (d : FlashDetector) (f : option Frame) :
  paused (video d) || ended (video d) = false ->
  ((frameCount d + 1) mod skipFrames =? 0)%N = false ->
  analyzeFrame d f = (set_frameCount (frameCount d + 1) d, None).
Proof.
  intros Hv Hs. rewrite analyzeFrame_path. unfold path.
  rewrite Hv, Hs. reflexivity.
Qed.




(** *** Red flashes *)





(** *** The warning latch *)

(** A latched detector dispatches nothing and stays latched. *)
Lemma triggerWarning_latched (c : FlashDetector) (ty : WarningType) (n : N)
    (pos : float) :
  warningShown c = true -> triggerWarning c ty n pos = (c, None).
Proof. intros H. unfold triggerWarning. rewrite H. reflexivity. Qed.

(** A dispatched warning sets the latch and pauses the video. *)
Lemma triggerWarning_latches (c c' : FlashDetector) (ty : WarningType) (n : N)
    (pos : float) (w : Warning) :
  triggerWarning c ty n pos = (c', Some w) ->
  warningShown c' = true /\ paused (video c') = true.
Proof.
  unfold triggerWarning. destruct (warningShown c); [discriminate|].
  intros H. injection H as <- _. fields. split; reflexivity.
Qed.

Lemma verdict_latched (c : FlashDetector) (pos : float) :
  warningShown c = true -> verdict c pos = (c, None).
Proof.
  intros H. unfold verdict.
  rewrite !(triggerWarning_latched _ _ _ _ H).
  destruct (FLASH_FREQUENCY <=? N.of_nat (length (flashTimestamps c)))%N;
    [reflexivity|].
  destruct (FLASH_FREQUENCY <=? N.of_nat (length (redFlashTimestamps c)))%N;
    reflexivity.
Qed.

Lemma verdict_latches (c c' : FlashDetector) (pos : float) (w : Warning) :
  verdict c pos = (c', Some w) ->
  warningShown c' = true /\ paused (video c') = true.
Proof.
  unfold verdict.
  destruct (FLASH_FREQUENCY <=? N.of_nat (length (flashTimestamps c)))%N;
    [apply triggerWarning_latches|].
  destruct (FLASH_FREQUENCY <=? N.of_nat (length (redFlashTimestamps c)))%N;
    [apply triggerWarning_latches | discriminate].
Qed.

Lemma analyzeFrame_latched (d : FlashDetector) (f : option Frame) :
  warningShown d = true ->
  snd (analyzeFrame d f) = None
  /\ warningShown (fst (analyzeFrame d f)) = true.
Proof.
  intros H. rewrite analyzeFrame_path.
  destruct (path d f) as [| | |fr|fr p]; cbn [outcome]; unfold stored; fields;
    try (split; [reflexivity | exact H]).
  rewrite verdict_latched by exact H. fields. split; [reflexivity | exact H].
Qed.

Lemma analyzeFrame_latches (d d' : FlashDetector) (f : option Frame)
    (w : Warning) :
  analyzeFrame d f = (d', Some w) ->
  warningShown d' = true /\ paused (video d') = true.
Proof.
  rewrite analyzeFrame_path.
  destruct (path d f) as [| | |fr|fr p]; cbn [outcome]; try discriminate.
  destruct (verdict (counted d fr p) (position fr)) as [c o] eqn:Hv.
  intros H. injection H as <- ->.
  apply verdict_latches in Hv. fields. exact Hv.
Qed.

(** On a paused video [analyzeFrame] returns at once. *)
Lemma analyzeFrame_paused (d : FlashDetector) (f : option Frame) :
  paused (video d) = true -> analyzeFrame d f = (d, None).
Proof. intros H. unfold analyzeFrame. rewrite H. reflexivity. Qed.

Lemma call_latched (d : FlashDetector) (c : Call) :
  clearsLatch c = false ->
  warningShown d = true ->
  snd (call d c) = None /\ warningShown (fst (call d c)) = true.
Proof.
  intros Hc H. destruct c; try discriminate; cbn [call fst snd].
  - apply analyzeFrame_latched. exact H.
  - split; [reflexivity | exact H].
  - split; [reflexivity | exact H].
  - split; [reflexivity | exact H].
Qed.

Lemma call_latches (d d' : FlashDetector) (c : Call) (w : Warning) :
  call d c = (d', Some w) -> warningShown d' = true.
Proof.
  destruct c; cbn [call]; try discriminate.
  - intros H. apply (analyzeFrame_latches _ _ _ _ H).
  - unfold start. destruct (isAnalyzing d); [discriminate|].
    intros H. apply (analyzeFrame_latches _ _ _ _ H).
Qed.

Lemma run_latched (d : FlashDetector) (cs : list Call) :
  Forall (fun c => clearsLatch c = false) cs ->
  warningShown d = true ->
  snd (run d cs) = [] /\ warningShown (fst (run d cs)) = true.
Proof.
  intros Hcs. revert d. induction Hcs as [|c cs Hc _ IH]; intros d H.
  - split; [reflexivity | exact H].
  - cbn [run]. destruct (call_latched d c Hc H) as [Hn Hl].
    destruct (call d c) as [d1 w]. cbn [fst snd] in Hn, Hl. subst w.
    destruct (IH d1 Hl) as [Hn' Hl'].
    destruct (run d1 cs) as [d2 ws]. cbn [fst snd emit] in *.
    split; assumption.
Qed.

(** C3: at most one warning per latch cycle.  Over every sequence of calls
    that does not clear the latch (no [start()], no [resetWarning()]; the
    video may be paused or resumed at will), at most one warning is
    dispatched; every dispatched warning sets the latch; and once the latch
    is set no further call dispatches a warning, however many qualifying
    frames arrive. *)
Theorem one_warning_per_latch_cycle (d : FlashDetector) (cs : list Call) :
  Forall (fun c => clearsLatch c = false) cs ->
  (length (snd (run d cs)) <= 1)%nat
  /\ (warningShown d = true ->
      snd (run d cs) = [] /\ warningShown (fst (run d cs)) = true)
  /\ (forall (c : Call) (d' : FlashDetector) (w : Warning),
        call d c = (d', Some w) -> warningShown d' = true).
Proof.
  intros Hcs. split; [|split].
  - revert d. induction Hcs as [|c cs Hc Hcs IH]; intros d.
    + cbn. lia.
    + cbn [run]. destruct (call d c) as [d1 [w|]] eqn:Hcall.
      * apply call_latches in Hcall.
        destruct (run_latched d1 cs Hcs Hcall) as [Hn _].
        destruct (run d1 cs) as [d2 ws]. cbn [fst snd emit length] in *.
        subst ws. cbn. lia.
      * specialize (IH d1). destruct (run d1 cs) as [d2 ws].
        cbn [fst snd emit] in *. exact IH.
  - apply run_latched. exact Hcs.
  - intros c d' w. apply call_latches.
Qed.

(** C3 at work: one warning, although the video is resumed and the red
    alternation is fed again after the warning. *)
Lemma one_warning_per_latch_cycle_witness :
  Forall (fun c => clearsLatch c = false) latchedCalls
  /\ (length (snd (run (warmedUp 0.5 0) latchedCalls)) <= 1)%nat.
Proof.
  assert (H : Forall (fun c => clearsLatch c = false) latchedCalls).
  { apply Forall_forall. intros c Hc.
    assert (Hb : forallb (fun c => negb (clearsLatch c)) latchedCalls = true)
      by (vm_compute; reflexivity).
    rewrite forallb_forall in Hb. apply Hb in Hc.
    apply negb_true_iff in Hc. exact Hc. }
  split; [exact H|].
  apply (one_warning_per_latch_cycle (warmedUp 0.5 0) latchedCalls H).
Defined.

(** *** Frames after the warning *)

Lemma call_keepsWarned (d : FlashDetector) (c : Call) :
  keepsWarned c = true ->
  paused (video d) = true ->
  paused (video (fst (call d c))) = true /\ snd (call d c) = None.
Proof.
  intros Hc H. destruct c; try discriminate; cbn [call fst snd].
  - rewrite (analyzeFrame_paused d f H). split; [exact H | reflexivity].
  - split; [exact H | reflexivity].
  - split; [exact H | reflexivity].
Qed.

Lemma run_keepsWarned (d : FlashDetector) (cs : list Call) :
  Forall (fun c => keepsWarned c = true) cs ->
  paused (video d) = true ->
  paused (video (fst (run d cs))) = true /\ snd (run d cs) = [].
Proof.
  intros Hcs. revert d. induction Hcs as [|c cs Hc _ IH]; intros d H.
  - split; [exact H | reflexivity].
  - cbn [run]. destruct (call_keepsWarned d c Hc H) as [Hp Hn].
    destruct (call d c) as [d1 w]. cbn [fst snd] in Hp, Hn. subst w.
    destruct (IH d1 Hp) as [Hp' Hn'].
    destruct (run d1 cs) as [d2 ws]. cbn [fst snd emit] in *.
    split; assumption.
Qed.

Lemma analyzeFrames_paused (d : FlashDetector) (fs : list (option Frame)) :
  paused (video d) = true -> analyzeFrames d fs = (d, []).
Proof.
  intros H. induction fs as [|f fs IH]; [reflexivity|].
  rewrite analyzeFrames_cons, (analyzeFrame_paused d f H). cbn [fst snd].
  rewrite IH. reflexivity.
Qed.

(** [analyzeFrame] reads [warningShown] nowhere but in [triggerWarning]:
    what a call does to the detection state does not depend on the latch. *)
Lemma analyzeFrame_latch_blind (b : bool) (d : FlashDetector)
    (f : option Frame) :
  detectionState (fst (analyzeFrame (set_warningShown b d) f))
  = detectionState (fst (analyzeFrame d f)).
Proof.
  rewrite !analyzeFrame_path.
  change (path (set_warningShown b d) f) with (path d f).
  destruct (path d f) as [| | |fr|fr p];
    try (cbn [outcome]; unfold stored, detectionState; fields; reflexivity).
  destruct (classified_state (set_warningShown b d) fr p)
    as (A1 & A2 & A3 & A4 & _ & _ & A5 & A6).
  destruct (classified_state d fr p) as (B1 & B2 & B3 & B4 & _ & _ & B5 & B6).
  unfold detectionState.
  rewrite A1, A2, A3, A4, A5, A6, B1, B2, B3, B4, B5, B6.
  reflexivity.
Qed.

(** Every call that gets past the [paused]/[ended] test counts itself. *)
Lemma analyzeFrame_frameCount (d : FlashDetector) (f : option Frame) :
  paused (video d) || ended (video d) = false ->
  frameCount (fst (analyzeFrame d f)) = (frameCount d + 1)%N.
Proof.
  intros H. rewrite analyzeFrame_path. unfold path. rewrite H.
  destruct (negb ((frameCount d + 1) mod skipFrames =? 0)%N);
    [reflexivity|].
  destruct f as [fr|]; [|reflexivity].
  destruct (analyzedFrameCount d + 1 <=? WARMUP_FRAMES)%N; [reflexivity|].
  destruct (darkGuard (currentLuminance fr) (prevLuminance d));
    [reflexivity|].
  destruct (prevLuminance d) as [p|]; [|reflexivity].
  destruct (classified_state d fr p) as (_ & _ & _ & _ & Hf & _).
  rewrite Hf. reflexivity.
Qed.

(** C4, as stated, fails when the video plays again with the latch still
    set: on the detector that has just dispatched its warning, after the
    video is resumed without [start()] or [resetWarning()], a bright frame
    is classified, appended to both windows and counted. *)
Lemma latched_frame_is_classified :
  ~ frozenWhileLatched warned resumed (frame 350 0.9 0).
Proof.
  unfold frozenWhileLatched. intros H.
  assert (Hw : warningShown warned = true) by (vm_compute; reflexivity).
  assert (Hcs : Forall (fun c => clearsLatch c = false) resumed)
    by (repeat constructor).
  specialize (H Hw Hcs). clear Hw Hcs.
  apply (f_equal (fun s => snd (fst (fst (fst s))))) in H.
  vm_compute in H. discriminate H.
Qed.

(** C4 (amended): the call of [analyzeFrame] that dispatches the warning
    sets the latch and pauses the video, and for as long as the video stays
    paused every later call of [analyzeFrame] returns the detector exactly
    as it found it (windows, [totalFlashes], [maxFlashesPerSecond] and
    previous metrics included) and dispatches nothing: for any number of
    frames in a row, and after any calls of [stop()] and
    [resetDetectionState()] in between.  The latch itself freezes nothing.
    After any calls that do not clear it, the video element's state
    changing among them, the latch is still set and no call dispatches a
    warning, but a call changes the detection state exactly as it does on
    the same detector with the latch clear, and it leaves the detector as
    it found it if and only if the video is paused or has ended. *)
Theorem frames_after_warning_ignored_while_paused (d d' : FlashDetector)
    (f : option Frame) (w : Warning) :
  analyzeFrame d f = (d', Some w) ->
  warningShown d' = true
  /\ paused (video d') = true
  /\ (forall fs : list (option Frame), analyzeFrames d' fs = (d', []))
  /\ (forall (cs : list Call) (f' : option Frame),
        Forall (fun c => keepsWarned c = true) cs ->
        analyzeFrame (fst (run d' cs)) f' = (fst (run d' cs), None))
  /\ (forall (cs : list Call) (f' : option Frame),
        Forall (fun c => clearsLatch c = false) cs ->
        let l := fst (run d' cs) in
        warningShown l = true
        /\ snd (analyzeFrame l f') = None
        /\ detectionState (fst (analyzeFrame l f'))
           = detectionState (fst (analyzeFrame (set_warningShown false l) f'))
        /\ (analyzeFrame l f' = (l, None)
            <-> paused (video l) || ended (video l) = true)).
Proof.
  intros H. apply analyzeFrame_latches in H. destruct H as [Hw Hp].
  split; [exact Hw|]. split; [exact Hp|]. split; [|split].
  - intros fs. apply analyzeFrames_paused. exact Hp.
  - intros cs f' Hcs. apply analyzeFrame_paused.
    apply (run_keepsWarned d' cs Hcs Hp).
  - intros cs f' Hcs l.
    assert (Hl : warningShown l = true) by apply (run_latched d' cs Hcs Hw).
    split; [exact Hl|]. split; [apply analyzeFrame_latched; exact Hl|].
    split; [symmetry; apply analyzeFrame_latch_blind|].
    split.
    + intros E.
      destruct (paused (video l) || ended (video l)) eqn:Hv; [reflexivity|].
      pose proof (analyzeFrame_frameCount l f' Hv) as Hf.
      rewrite E in Hf. cbn [fst] in Hf. lia.
    + intros Hv. unfold analyzeFrame. rewrite Hv. reflexivity.
Qed.

(** C4 at work: the third red transition dispatches the warning, and the
    red alternation fed again afterwards changes nothing. *)
Lemma frames_after_warning_ignored_while_paused_witness :
  exists (d' : FlashDetector) (w : Warning),
    analyzeFrame beforeWarning (Some (redFrame 300 0.9)) = (d', Some w)
    /\ warningShown d' = true
    /\ analyzeFrames d' redAlternation = (d', []).
Proof.
  destruct (analyzeFrame beforeWarning (Some (redFrame 300 0.9)))
    as [d' [w|]] eqn:E.
  - exists d', w. split; [reflexivity|].
    destruct (frames_after_warning_ignored_while_paused beforeWarning d'
                (Some (redFrame 300 0.9)) w E) as (Hw & _ & Hfs & _).
    split; [exact Hw | apply Hfs].
  - exfalso. apply (f_equal snd) in E. vm_compute in E. discriminate.
Defined.

(** *** The frame skipping *)

Lemma even_mod2 (n : N) : N.even n = (n mod 2 =? 0)%N.
Proof.
  destruct (N.even n) eqn:E; symmetry.
  - apply N.eqb_eq. apply N.even_spec in E. destruct E as [k ->].
    rewrite N.mul_comm. apply N.Div0.mod_mul.
  - apply N.eqb_neq. intros H.
    assert (E' : N.even n = true).
    { apply N.even_spec. exists (n / 2)%N.
      pose proof (N.div_mod n 2). lia. }
    congruence.
Qed.

(** C5 on the code: [skipFrames] is 2, so the frame skipping lets through every
    second call, not every third.  On a playing video a call is analysed
    exactly when the incremented call counter is even; a call that is not
    analysed changes nothing but the call counter; of the first three calls
    after construction the second is analysed and the third is not. *)
Theorem stride_takes_every_second_call :
  (forall (d : FlashDetector) (fr : Frame),
     analyzedFrameCount (fst (analyzeFrame d (Some fr)))
     = (analyzedFrameCount d
        + if negb (paused (video d) || ended (video d))
             && N.even (frameCount d + 1)
          then 1 else 0)%N)
  /\ (forall (d : FlashDetector) (f : option Frame),
        if negb (paused (video d) || ended (video d))
           && negb (N.even (frameCount d + 1))
        then analyzeFrame d f = (set_frameCount (frameCount d + 1) d, None)
        else True)
  /\ (let d1 := fst (analyzeFrame (constructor playing) (Some plainFrame)) in
      let d2 := fst (analyzeFrame d1 (Some plainFrame)) in
      let d3 := fst (analyzeFrame d2 (Some plainFrame)) in
      (frameCount d1, analyzedFrameCount d1) = (1, 0)%N
      /\ (frameCount d2, analyzedFrameCount d2) = (2, 1)%N
      /\ (frameCount d3, analyzedFrameCount d3) = (3, 1)%N).
Proof.
  split; [|split].
  - intros d fr. rewrite analyzeFrame_path, even_mod2. unfold path.
    change 2%N with skipFrames.
    destruct (paused (video d) || ended (video d)); cbn [negb andb outcome fst].
    + lia.
    + destruct ((frameCount d + 1) mod skipFrames =? 0)%N; cbn [negb].
      * destruct (analyzedFrameCount d + 1 <=? WARMUP_FRAMES)%N;
          [reflexivity|].
        destruct (darkGuard (currentLuminance fr) (prevLuminance d));
          [reflexivity|].
        destruct (prevLuminance d) as [p|]; [|reflexivity].
        apply (classified_state d fr p).
      * cbn [outcome fst]. fields. lia.
  - intros d f. rewrite even_mod2. change 2%N with skipFrames.
    destruct (paused (video d) || ended (video d)) eqn:Hv; cbn [negb andb];
      [exact I|].
    destruct ((frameCount d + 1) mod skipFrames =? 0)%N eqn:Hs; cbn [negb];
      [exact I|].
    apply analyzeFrame_skipped; assumption.
  - vm_compute. repeat split.
Qed.

(** *** The window invariant *)

(** What it takes for a call to reach the classification. *)
Lemma classifies_iff (d : FlashDetector) (f : option Frame) :
  classifies d f = true <->
  exists (fr : Frame) (p : float),
    f = Some fr
    /\ proceeds d = true
    /\ (WARMUP_FRAMES <= analyzedFrameCount d)%N
    /\ prevLuminance d = Some p
    /\ darkGuard (currentLuminance fr) (Some p) = false.
Proof.
  unfold classifies, path, proceeds.
  destruct (paused (video d) || ended (video d)); cbn [negb andb].
  { split; [discriminate | intros (fr & p & _ & H & _); discriminate]. }
  destruct ((frameCount d + 1) mod skipFrames =? 0)%N; cbn [negb].
  2: { split; [discriminate | intros (fr & p & _ & H & _); discriminate]. }
  destruct f as [fr|].
  2: { split; [discriminate | intros (fr & p & H & _); discriminate]. }
  destruct (N.leb_spec (analyzedFrameCount d + 1) WARMUP_FRAMES).
  { split; [discriminate | intros (fr' & p & _ & _ & H' & _); lia]. }
  destruct (prevLuminance d) as [p|].
  2: { assert (E : match
                       (if darkGuard (currentLuminance fr) None
                        then Stored fr else Stored fr)
                     with Classified _ _ => true | _ => false end = false)
         by (destruct (darkGuard (currentLuminance fr) None); reflexivity).
       rewrite E.
       split; [discriminate | intros (fr' & p & _ & _ & _ & H' & _);
                              discriminate]. }
  destruct (darkGuard (currentLuminance fr) (Some p)) eqn:Hg.
  - split; [discriminate|].
    intros (fr' & p' & Hf & _ & _ & Hp & Hg').
    injection Hf as <-. injection Hp as <-. congruence.
  - split; [|reflexivity]. intros _. exists fr, p.
    repeat split; [lia | exact Hg].
Qed.

(** C6, as stated, fails on a call that returns before the filters: with
    one flash recorded at 100 ms, a dark frame at 5000 ms leaves that
    timestamp in the general window. *)
Lemma stale_timestamp_after_dark_frame :
  ~ windowsWithin (currentTime darkFrame)
      (fst (analyzeFrame flashedOnce (Some darkFrame))).
Proof.
  intros [H _].
  assert (E : flashTimestamps (fst (analyzeFrame flashedOnce (Some darkFrame)))
              = [100%Z]) by (vm_compute; reflexivity).
  rewrite E in H. apply Forall_inv in H.
  unfold DETECTION_WINDOW in H. cbn in H. lia.
Qed.

(** C6 (amended): after every call of [analyzeFrame] that reaches the
    classification (video playing, call let through by the frame skipping, frame
    captured, warmup over, previous luminance set, no dark frame), every
    timestamp [t] of either window satisfies [now - t <= 1000]; every other
    call (paused video, skipped call, failed capture, warmup frame,
    dark-suppressed frame) leaves both windows exactly as they were. *)
Theorem windows_pruned_when_classified (d : FlashDetector) (f : option Frame) :
  let d' := fst (analyzeFrame d f) in
  if classifies d f
  then exists fr : Frame, f = Some fr /\ windowsWithin (currentTime fr) d'
  else flashTimestamps d' = flashTimestamps d
       /\ redFlashTimestamps d' = redFlashTimestamps d.
Proof.
  cbv zeta. rewrite analyzeFrame_path. unfold classifies.
  destruct (path d f) as [| | |fr|fr p] eqn:Hpath; cbn [outcome];
    unfold stored; fields; try (split; reflexivity).
  assert (Hf : f = Some fr).
  { unfold path in Hpath.
    destruct (paused (video d) || ended (video d)); [discriminate|].
    destruct (negb ((frameCount d + 1) mod skipFrames =? 0)%N);
      [discriminate|].
    destruct f as [fr'|]; [|discriminate].
    destruct (analyzedFrameCount d + 1 <=? WARMUP_FRAMES)%N; [discriminate|].
    destruct (darkGuard (currentLuminance fr') (prevLuminance d));
      [discriminate|].
    destruct (prevLuminance d); [|discriminate].
    injection Hpath as -> _. reflexivity. }
  exists fr. split; [exact Hf|].
  destruct (classified_state d fr p) as (H1 & H2 & _).
  cbn [outcome] in H1, H2. unfold windowsWithin. rewrite H1, H2.
  unfold counted. fields. split; apply filter_within.
Qed.

(** *** The warmup *)






(** *** Metrics of an empty frame *)

(** The fuel of the two sampling loops is enough: they stop by themselves
    once the index has passed the end of the data. *)
Lemma luminanceLoop_fuel (Math_pow : float -> float -> float) (data : list Z)
    (fuel extra i : nat) (total : float) :
  (length data <= i + 16 * fuel)%nat ->
  luminanceLoop Math_pow data (fuel + extra) i total
  = luminanceLoop Math_pow data fuel i total.
Proof.
  revert i total. induction fuel as [|fuel IH]; intros i total Hlen.
  - cbn [Nat.add luminanceLoop]. destruct extra as [|extra]; [reflexivity|].
    cbn [luminanceLoop].
    destruct (Nat.ltb_spec i (length data)); [lia | reflexivity].
  - cbn [Nat.add luminanceLoop].
    destruct (Nat.ltb_spec i (length data)); [|reflexivity].
    apply IH. lia.
Qed.

Lemma redLoop_fuel (data : list Z) (fuel extra i : nat) (total : float) :
  (length data <= i + 16 * fuel)%nat ->
  redLoop data (fuel + extra) i total = redLoop data fuel i total.
Proof.
  revert i total. induction fuel as [|fuel IH]; intros i total Hlen.
  - cbn [Nat.add redLoop]. destruct extra as [|extra]; [reflexivity|].
    cbn [redLoop].
    destruct (Nat.ltb_spec i (length data)); [lia | reflexivity].
  - cbn [Nat.add redLoop].
    destruct (Nat.ltb_spec i (length data)); [|reflexivity].
    apply IH. lia.
Qed.

(** With [data.length] as fuel the loops run to their end. *)
Lemma calculateLuminance_fuel (Math_pow : float -> float -> float)
    (data : list Z) (extra : nat) :
  luminanceLoop Math_pow data (length data + extra) 0 0%float
  = luminanceLoop Math_pow data (length data) 0 0%float.
Proof. apply luminanceLoop_fuel. lia. Qed.

Lemma calculateRedSaturation_fuel (data : list Z) (extra : nat) :
  redLoop data (length data + extra) 0 0%float
  = redLoop data (length data) 0 0%float.
Proof. apply redLoop_fuel. lia. Qed.

Lemma nan_not_zero (x : float) : is_nan x = true -> x <> 0%float.
Proof. intros H E. rewrite E in H. vm_compute in H. discriminate. Qed.

(** C8, as stated, fails: on an empty frame neither metric is 0, whatever
    [Math.pow] computes. *)
Lemma empty_frame_is_not_zero :
  ~ exists Math_pow : float -> float -> float, emptyFrameIsZero Math_pow.
Proof.
  intros [Math_pow (_ & H & _)]. revert H. apply nan_not_zero. reflexivity.
Qed.

(** C8 (amended): for an empty frame (no pixel data) both
    [calculateLuminance] and [calculateRedSaturation] divide 0 by 0 and
    return NaN, which is neither 0 nor finite; there is no guard against
    the division by zero. *)
Theorem empty_frame_metrics_are_nan (Math_pow : float -> float -> float) :
  is_nan (calculateLuminance Math_pow []) = true
  /\ is_nan (calculateRedSaturation []) = true
  /\ isFinite (calculateLuminance Math_pow []) = false
  /\ isFinite (calculateRedSaturation []) = false
  /\ calculateLuminance Math_pow [] <> 0%float
  /\ calculateRedSaturation [] <> 0%float.
Proof.
  repeat split; try reflexivity; apply nan_not_zero; reflexivity.
Qed.

(** *** Resetting *)

(** C9: [resetDetectionState()] is idempotent: applied twice it yields
    exactly the detector it yields applied once, in which the previous
    metrics are cleared, both windows are empty and [analyzedFrameCount] is
    zero. *)
Theorem resetDetectionState_idempotent (d : FlashDetector) :
  resetDetectionState (resetDetectionState d) = resetDetectionState d
  /\ prevLuminance (resetDetectionState d) = None
  /\ prevRedSaturation (resetDetectionState d) = None
  /\ flashTimestamps (resetDetectionState d) = []
  /\ redFlashTimestamps (resetDetectionState d) = []
  /\ analyzedFrameCount (resetDetectionState d) = 0%N.
Proof. repeat split. Qed.

(** *** The flash counter *)

(** On the current frame of a compared pair the two events are the two
    conditions of the source. *)
Lemma events_compared (d : FlashDetector) (fr : Frame) (p r : float) :
  compared d p r ->
  generalEvent d (Some fr) = generalFlash (currentLuminance fr) p
  /\ redEvent d (Some fr)
     = redFlash (currentRedSaturation fr) (Some r) (currentLuminance fr) p.
Proof.
  intros Hc. unfold generalEvent, redEvent.
  rewrite (compared_path d fr p r Hc).
  destruct Hc as (_ & _ & _ & Hr). rewrite Hr.
  destruct (darkGuard (currentLuminance fr) (Some p)) eqn:Hg;
    [|split; reflexivity].
  apply dark_not_bright in Hg. unfold generalFlash, redFlash.
  rewrite Hg, !andb_false_r. split; reflexivity.
Qed.


(** C10: a call of [analyzeFrame] increments [totalFlashes] by one exactly
    when it records a general flash and leaves it alone otherwise, whether
    or not it records a red flash; there are calls that record a red flash
    and leave the counter alone; and the warning of type red dispatched by
    the red alternation after a warmup carries a flash count of 3 and a
    [totalFlashes] of 0. *)
Theorem totalFlashes_counts_general_only :
  (forall (d : FlashDetector) (f : option Frame),
     totalFlashes (fst (analyzeFrame d f))
     = (totalFlashes d + if generalEvent d f then 1 else 0)%N)
  /\ (redEvent (warmedUp 0.5 0) (Some (redFrame 100 0.9)) = true
      /\ generalEvent (warmedUp 0.5 0) (Some (redFrame 100 0.9)) = false)
  /\ (exists (d' : FlashDetector) (w : Warning),
        analyzeFrames (warmedUp 0.5 0) redAlternation = (d', [w])
        /\ type w = red
        /\ flashCount w = 3%N
        /\ w_totalFlashes w = 0%N
        /\ length (redFlashTimestamps d') = 3%nat).
Proof.
  split; [|split].
  - intros d f. rewrite analyzeFrame_path. unfold generalEvent.
    destruct (path d f) as [| | |fr|fr p]; cbn [outcome]; unfold stored;
      fields; try lia.
    destruct (classified_state d fr p) as (_ & _ & Ht & _).
    cbn [outcome] in Ht. rewrite Ht. unfold counted. fields.
    destruct (generalFlash (currentLuminance fr) p); lia.
  - split; vm_compute; reflexivity.
  - eexists. eexists. split; [vm_compute; reflexivity|].
    repeat split.
Qed.

(** ** Further properties of the detector *)

(** What a classified call has found. *)
Lemma path_classified (d : FlashDetector) (f : option Frame) (fr : Frame)
    (p : float) :
  path d f = Classified fr p ->
  f = Some fr
  /\ proceeds d = true
  /\ (WARMUP_FRAMES <= analyzedFrameCount d)%N
  /\ prevLuminance d = Some p
  /\ darkGuard (currentLuminance fr) (Some p) = false.
Proof.
  unfold path, proceeds.
  destruct (paused (video d) || ended (video d)); [discriminate|].
  destruct ((frameCount d + 1) mod skipFrames =? 0)%N; [|discriminate].
  cbn [negb andb].
  destruct f as [fr'|]; [|discriminate].
  destruct (N.leb_spec (analyzedFrameCount d + 1) WARMUP_FRAMES);
    [discriminate|].
  destruct (prevLuminance d) as [p'|].
  - destruct (darkGuard (currentLuminance fr') (Some p')) eqn:Hg;
      [discriminate|].
    intros E. injection E as -> ->. repeat split; [lia | exact Hg].
  - destruct (darkGuard (currentLuminance fr') None); discriminate.
Qed.

(** What a dispatched warning says about the detector that the threshold
    test looked at. *)
Lemma verdict_warning (c c' : FlashDetector) (pos : float) (w : Warning) :
  verdict c pos = (c', Some w) ->
  warningShown c = false
  /\ timestamp w = pos
  /\ w_totalFlashes w = totalFlashes c
  /\ w_maxFlashesPerSecond w = maxFlashesPerSecond c
  /\ ((type w = general
       /\ flashCount w = N.of_nat (length (flashTimestamps c))
       /\ (3 <= length (flashTimestamps c))%nat)
      \/ (type w = red
          /\ flashCount w = N.of_nat (length (redFlashTimestamps c))
          /\ (3 <= length (redFlashTimestamps c))%nat
          /\ (length (flashTimestamps c) < 3)%nat)).
Proof.
  unfold verdict, triggerWarning, FLASH_FREQUENCY.
  destruct (N.leb_spec 3 (N.of_nat (length (flashTimestamps c)))).
  - destruct (warningShown c); [discriminate|].
    intros E. injection E as _ <-. fields.
    repeat split. left. repeat split. lia.
  - destruct (N.leb_spec 3 (N.of_nat (length (redFlashTimestamps c))));
      [|discriminate].
    destruct (warningShown c); [discriminate|].
    intros E. injection E as _ <-. fields.
    repeat split. right. repeat split; lia.
Qed.

(** X1: every warning that [analyzeFrame] dispatches comes from a captured
    frame on a detector that was not latched, reports at least 3 flashes,
    namely the size of the window of its type after the filter, and carries
    the detector's [totalFlashes] and [maxFlashesPerSecond].  The general
    window is tested first: a warning of type red means that the general
    window holds fewer than 3 timestamps, and a general warning never
    reports more flashes than its [maxFlashesPerSecond].  Both windows are
    within 1000 ms of the frame at that point. *)
Theorem warning_reports_its_window (d d' : FlashDetector) (f : option Frame)
    (w : Warning) :
  analyzeFrame d f = (d', Some w) ->
  exists fr : Frame,
    f = Some fr
    /\ timestamp w = position fr
    /\ warningShown d = false
    /\ (3 <= flashCount w)%N
    /\ w_totalFlashes w = totalFlashes d'
    /\ w_maxFlashesPerSecond w = maxFlashesPerSecond d'
    /\ match type w with
       | general =>
           flashCount w = N.of_nat (length (flashTimestamps d'))
           /\ (flashCount w <= w_maxFlashesPerSecond w)%N
       | red =>
           flashCount w = N.of_nat (length (redFlashTimestamps d'))
           /\ (length (flashTimestamps d') < 3)%nat
       end
    /\ windowsWithin (currentTime fr) d'.
Proof.
  rewrite analyzeFrame_path.
  destruct (path d f) as [| | |fr0|fr p] eqn:Hpath; cbn [outcome];
    try discriminate.
  destruct (path_classified d f fr p Hpath) as (Hf & _).
  pose proof (verdict_state (counted d fr p) (position fr)) as Hst.
  destruct (verdict (counted d fr p) (position fr)) as [c o] eqn:Hv.
  intros E. injection E as <- ->.
  cbn [fst] in Hst. destruct Hst as (S1 & S2 & S3 & S4 & _).
  destruct (verdict_warning _ _ _ _ Hv) as (Hw & Hpos & Htot & Hmax & Hty).
  exists fr. fields. rewrite S1, S2, S3, S4.
  split; [exact Hf|]. split; [exact Hpos|].
  split; [exact Hw|].
  assert (Hm : (N.of_nat (length (flashTimestamps (counted d fr p)))
                <= maxFlashesPerSecond (counted d fr p))%N).
  { unfold counted. fields. lia. }
  split; [|split; [exact Htot | split; [exact Hmax|split]]].
  - destruct Hty as [(_ & -> & H3) | (_ & -> & H3 & _)]; lia.
  - destruct Hty as [(-> & Hn & H3) | (-> & Hn & H3 & Hlt)].
    + split; [exact Hn | rewrite Hn, Hmax; exact Hm].
    + split; [exact Hn | exact Hlt].
  - unfold windowsWithin. fields. rewrite S1, S2. unfold counted. fields.
    split; apply filter_within.
Qed.

(** X1 at work: the warning of the red alternation. *)
Lemma warning_reports_its_window_witness :
  exists (d' : FlashDetector) (w : Warning),
    analyzeFrame beforeWarning (Some (redFrame 300 0.9)) = (d', Some w)
    /\ (3 <= flashCount w)%N
    /\ w_totalFlashes w = totalFlashes d'.
Proof.
  destruct (analyzeFrame beforeWarning (Some (redFrame 300 0.9)))
    as [d' [w|]] eqn:E.
  - exists d', w. split; [reflexivity|].
    destruct (warning_reports_its_window beforeWarning d'
                (Some (redFrame 300 0.9)) w E)
      as (fr & _ & _ & _ & H3 & Ht & _).
    split; assumption.
  - exfalso. apply (f_equal snd) in E. vm_compute in E. discriminate.
Defined.

(** *** Three general flashes *)

Lemma filter_pushIf_bound (now : Z) (b : bool) (ts : list Z) :
  (length (filter (inWindow now) (pushIf b ts now)) <= S (length ts))%nat.
Proof.
  pose proof (filter_length_le (inWindow now) (pushIf b ts now)) as H.
  destruct b; cbn [pushIf] in *; [rewrite length_app in H; cbn in H|]; lia.
Qed.

Lemma generalFlash_bright (cur p : float) :
  generalFlash cur p = true -> darkGuard cur (Some p) = false.
Proof.
  intros H. apply bright_not_dark. unfold generalFlash in H.
  apply andb_true_iff in H. destruct H as [H _].
  apply andb_true_iff in H. tauto.
Qed.

(** A general flash that leaves fewer than three timestamps in both
    windows, and the skipped call after it. *)
Lemma general_step_quiet (d : FlashDetector) (fr : Frame) (x : option Frame)
    (p r : float) (gts : list Z) (k : nat) :
  armed d p r gts k ->
  generalFlash (currentLuminance fr) p = true ->
  (length (filter (inWindow (currentTime fr)) gts) < 2)%nat ->
  (k < 2)%nat ->
  exists d2,
    analyzeFrames d [Some fr; x] = (d2, [])
    /\ armed d2 (currentLuminance fr) (currentRedSaturation fr)
         (filter (inWindow (currentTime fr)) gts ++ [currentTime fr]) (S k)
    /\ totalFlashes d2 = (totalFlashes d + 1)%N.
Proof.
  intros (Hc & Hw & Hf & Hr) Hg Hlen Hk.
  pose proof (compared_path d fr p r Hc) as Hpath.
  rewrite (generalFlash_bright _ _ Hg) in Hpath.
  destruct Hc as (Ha & Hwarm & Hp & Hpr).
  unfold proceeds in Ha. apply andb_true_iff in Ha. destruct Ha as [Hv Hs].
  apply negb_true_iff in Hv. apply N.eqb_eq in Hs.
  set (c := counted d fr p).
  assert (Hcf : flashTimestamps c
                = filter (inWindow (currentTime fr)) gts ++ [currentTime fr]).
  { subst c. unfold counted. fields. rewrite Hg, Hf. cbn [pushIf].
    apply filter_push. }
  assert (Hcr : (length (redFlashTimestamps c) <= S k)%nat).
  { subst c. unfold counted. fields.
    pose proof (filter_pushIf_bound (currentTime fr)
                  (redFlash (currentRedSaturation fr) (prevRedSaturation d)
                     (currentLuminance fr) p) (redFlashTimestamps d)).
    lia. }
  assert (Hverdict : verdict c (position fr) = (c, None)).
  { unfold verdict, FLASH_FREQUENCY. rewrite Hcf, length_app. cbn [length].
    destruct (N.leb_spec 3
                (N.of_nat (length (filter (inWindow (currentTime fr)) gts) + 1)));
      [lia|].
    destruct (N.leb_spec 3 (N.of_nat (length (redFlashTimestamps c))));
      [lia | reflexivity]. }
  assert (Hstep : analyzeFrame d (Some fr)
                  = (set_prev (Some (currentLuminance fr))
                       (Some (currentRedSaturation fr)) c, None)).
  { rewrite analyzeFrame_path, Hpath. cbn [outcome]. fold c.
    rewrite Hverdict. reflexivity. }
  set (d1 := set_prev (Some (currentLuminance fr))
               (Some (currentRedSaturation fr)) c) in *.
  assert (Hskip : analyzeFrame d1 x
                  = (set_frameCount (frameCount d1 + 1) d1, None)).
  { apply analyzeFrame_skipped.
    - subst d1 c. unfold counted. fields. exact Hv.
    - subst d1 c. unfold counted. fields. apply N.eqb_neq.
      unfold skipFrames in *. lia. }
  exists (set_frameCount (frameCount d1 + 1) d1). split.
  - rewrite analyzeFrames_cons, Hstep. cbn [fst snd].
    rewrite analyzeFrames_cons, Hskip. reflexivity.
  - assert (Hc1 : video c = video d /\ frameCount c = (frameCount d + 1)%N
                  /\ analyzedFrameCount c = (analyzedFrameCount d + 1)%N
                  /\ warningShown c = warningShown d
                  /\ totalFlashes c = (totalFlashes d + 1)%N).
    { subst c. unfold counted. fields. rewrite Hg. repeat split. }
    destruct Hc1 as (V1 & V2 & V3 & V4 & V5).
    subst d1. unfold armed, compared, proceeds. fields.
    rewrite Hcf, V1, V2, V3, V4, V5, Hv. cbn [negb andb].
    repeat split; try assumption.
    + apply N.eqb_eq. unfold skipFrames in *. lia.
    + lia.
Qed.

(** The general flash that brings the general window to three
    timestamps. *)
Lemma general_step_fire (d : FlashDetector) (fr : Frame) (p r : float)
    (gts : list Z) (k : nat) :
  armed d p r gts k ->
  generalFlash (currentLuminance fr) p = true ->
  length (filter (inWindow (currentTime fr)) gts) = 2%nat ->
  exists d' w,
    analyzeFrame d (Some fr) = (d', Some w)
    /\ type w = general
    /\ flashCount w = 3%N
    /\ w_totalFlashes w = (totalFlashes d + 1)%N
    /\ paused (video d') = true.
Proof.
  intros (Hc & Hw & Hf & Hr) Hg Hlen.
  pose proof (compared_path d fr p r Hc) as Hpath.
  rewrite (generalFlash_bright _ _ Hg) in Hpath.
  set (c := counted d fr p).
  assert (Hcf : flashTimestamps c
                = filter (inWindow (currentTime fr)) gts ++ [currentTime fr]).
  { subst c. unfold counted. fields. rewrite Hg, Hf. cbn [pushIf].
    apply filter_push. }
  assert (Hcw : warningShown c = false) by exact Hw.
  assert (Hct : totalFlashes c = (totalFlashes d + 1)%N).
  { subst c. unfold counted. fields. rewrite Hg. reflexivity. }
  rewrite analyzeFrame_path, Hpath. cbn [outcome]. fold c.
  unfold verdict, FLASH_FREQUENCY. rewrite Hcf, length_app, Hlen.
  cbn [length Nat.add].
  destruct (N.leb_spec 3 (N.of_nat 3)); [|lia].
  unfold triggerWarning. rewrite Hcw. fields.
  eexists. eexists. split; [reflexivity|]. fields.
  repeat split. exact Hct.
Qed.

(** X2: three general flashes within one detection window, from empty
    windows and with no warning latched, whatever the red saturation does:
    the third one dispatches the only warning, of type general, counting 3,
    with [totalFlashes] three higher than before, and pauses the video. *)
Theorem three_general_flashes (d : FlashDetector) (f1 f2 f3 : Frame)
    (x y : option Frame) (p r : float) :
  armed d p r [] 0 ->
  generalFlash (currentLuminance f1) p = true ->
  generalFlash (currentLuminance f2) (currentLuminance f1) = true ->
  generalFlash (currentLuminance f3) (currentLuminance f2) = true ->
  (currentTime f1 <= currentTime f2 <= currentTime f3)%Z ->
  (currentTime f3 - currentTime f1 <= DETECTION_WINDOW)%Z ->
  exists d' w,
    analyzeFrames d [Some f1; x; Some f2; y; Some f3] = (d', [w])
    /\ type w = general
    /\ flashCount w = 3%N
    /\ w_totalFlashes w = (totalFlashes d + 3)%N
    /\ paused (video d') = true.
Proof.
  intros Hq H1 H2 H3 Ht Hw.
  destruct (general_step_quiet d f1 x p r [] 0 Hq H1) as (d1 & E1 & Q1 & T1);
    [cbn; lia | lia |].
  cbn [filter app] in Q1.
  assert (W12 : inWindow (currentTime f2) (currentTime f1) = true).
  { unfold inWindow. apply Z.leb_le. lia. }
  destruct (general_step_quiet d1 f2 y _ _ _ _ Q1 H2) as (d2 & E2 & Q2 & T2).
  { cbn [filter]. rewrite W12. cbn. lia. }
  { lia. }
  cbn [filter] in Q2. rewrite W12 in Q2. cbn [app] in Q2.
  assert (W13 : inWindow (currentTime f3) (currentTime f1) = true).
  { unfold inWindow. apply Z.leb_le. lia. }
  assert (W23 : inWindow (currentTime f3) (currentTime f2) = true).
  { unfold inWindow. apply Z.leb_le. lia. }
  destruct (general_step_fire d2 f3 _ _ _ _ Q2 H3)
    as (d3 & w & E3 & Hty & Hn & Htot & Hp).
  { cbn [filter]. rewrite W13, W23. reflexivity. }
  exists d3, w. split.
  - change [Some f1; x; Some f2; y; Some f3]
      with ([Some f1; x] ++ [Some f2; y] ++ [Some f3]).
    rewrite analyzeFrames_app, E1. cbn [fst snd].
    rewrite analyzeFrames_app, E2. cbn [fst snd].
    rewrite analyzeFrames_cons, E3. reflexivity.
  - repeat split; try assumption. lia.
Qed.

Lemma warmedUp_armed (lum redSat : float) :
  armed (warmedUp lum redSat) lum redSat [] 0.
Proof.
  split; [apply warmedUp_compared|]. repeat split. cbn. lia.
Qed.

(** X2 at work: luminance going 0.9, 0.1, 0.9 within 400 ms after a warmup
    on luminance 0.5. *)
Lemma three_general_flashes_witness :
  exists d' w,
    analyzeFrames (warmedUp 0.5 0)
      [Some (lumFrame 100 0.9); None; Some (lumFrame 300 0.1); None;
       Some (lumFrame 500 0.9)] = (d', [w])
    /\ type w = general
    /\ flashCount w = 3%N
    /\ w_totalFlashes w = 3%N
    /\ paused (video d') = true.
Proof.
  apply (three_general_flashes (warmedUp 0.5 0) (lumFrame 100 0.9)
           (lumFrame 300 0.1) (lumFrame 500 0.9) None None 0.5 0).
  - apply warmedUp_armed.
  - vm_compute. reflexivity.
  - vm_compute. reflexivity.
  - vm_compute. reflexivity.
  - cbn. lia.
  - cbn. unfold DETECTION_WINDOW. lia.
Defined.

(** *** Slow flashes *)

Lemma gapped_filter (f : Z -> bool) (T : Z) (ts : list Z) :
  gapped T ts -> gapped T (filter f ts).
Proof.
  induction ts as [|t ts IH]; [exact (fun H => H)|].
  cbn [gapped filter]. intros (Ht & Hall & Hg).
  destruct (f t); [|exact (IH Hg)].
  cbn [gapped]. split; [exact Ht|]. split; [|exact (IH Hg)].
  apply Forall_forall. intros u Hu. apply filter_In in Hu.
  rewrite Forall_forall in Hall. apply Hall. tauto.
Qed.

Lemma gapped_later (T T' : Z) (ts : list Z) :
  (T <= T')%Z -> gapped T ts -> gapped T' ts.
Proof.
  intros HT. induction ts as [|t ts IH]; [exact (fun H => H)|].
  cbn [gapped]. intros (Ht & Hall & Hg).
  split; [lia|]. split; [exact Hall | exact (IH Hg)].
Qed.

Lemma gapped_push (T now : Z) (ts : list Z) :
  (T + 500 < now)%Z -> gapped T ts -> gapped now (ts ++ [now]).
Proof.
  intros HT. induction ts as [|t ts IH].
  - intros _. cbn. repeat split; [lia | constructor].
  - cbn [gapped app]. intros (Ht & Hall & Hg).
    split; [lia|]. split; [|exact (IH Hg)].
    apply Forall_app. split; [exact Hall|].
    constructor; [lia | constructor].
Qed.

(** After more than 500 ms at most one timestamp of a gapped window is
    still within 1000 ms. *)
Lemma gapped_filter_length (T now : Z) (ts : list Z) :
  (T + 500 < now)%Z -> gapped T ts ->
  (length (filter (inWindow now) ts) <= 1)%nat.
Proof.
  intros HT. induction ts as [|t ts IH]; [cbn; lia|].
  cbn [gapped]. intros (Ht & Hall & Hg).
  destruct ts as [|u ts'].
  - cbn [filter]. destruct (inWindow now t); cbn; lia.
  - assert (Hu : (t + 500 < u)%Z) by (apply (Forall_inv Hall)).
    assert (HuT : (u <= T)%Z) by (cbn [gapped] in Hg; tauto).
    cbn [filter]. fold (filter (inWindow now) (u :: ts')).
    assert (Hout : inWindow now t = false).
    { unfold inWindow, DETECTION_WINDOW. apply Z.leb_gt. lia. }
    rewrite Hout. exact (IH Hg).
Qed.

(** A classified frame more than 500 ms after everything in the windows
    dispatches nothing and leaves the windows gapped. *)
Lemma slow_step (T : Z) (d : FlashDetector) (fr : Frame) (p : float) :
  gapped T (flashTimestamps d) ->
  gapped T (redFlashTimestamps d) ->
  (T + 500 < currentTime fr)%Z ->
  let r := outcome d (Classified fr p) in
  snd r = None
  /\ gapped (currentTime fr) (flashTimestamps (fst r))
  /\ gapped (currentTime fr) (redFlashTimestamps (fst r)).
Proof.
  intros Hgf Hgr HT.
  assert (Hlen : forall (b : bool) (ts : list Z),
             gapped T ts ->
             (length (filter (inWindow (currentTime fr))
                        (pushIf b ts (currentTime fr))) <= 2)%nat
             /\ gapped (currentTime fr)
                  (filter (inWindow (currentTime fr))
                     (pushIf b ts (currentTime fr)))).
  { intros b ts Hg. destruct b; cbn [pushIf].
    - split.
      + rewrite filter_push, length_app. cbn [length].
        pose proof (gapped_filter_length T _ ts HT Hg). lia.
      + apply gapped_filter. apply (gapped_push T); assumption.
    - split.
      + pose proof (gapped_filter_length T _ ts HT Hg). lia.
      + apply gapped_filter. apply (gapped_later T); [lia | exact Hg]. }
  set (c := counted d fr p).
  destruct (Hlen (generalFlash (currentLuminance fr) p) _ Hgf) as [L1 G1].
  destruct (Hlen (redFlash (currentRedSaturation fr) (prevRedSaturation d)
                    (currentLuminance fr) p) _ Hgr) as [L2 G2].
  assert (Hverdict : verdict c (position fr) = (c, None)).
  { unfold verdict, FLASH_FREQUENCY. subst c. unfold counted. fields.
    destruct (N.leb_spec 3
                (N.of_nat
                   (length
                      (filter (inWindow (currentTime fr))
                         (pushIf (generalFlash (currentLuminance fr) p)
                            (flashTimestamps d) (currentTime fr))))));
      [lia|].
    destruct (N.leb_spec 3
                (N.of_nat
                   (length
                      (filter (inWindow (currentTime fr))
                         (pushIf
                            (redFlash (currentRedSaturation fr)
                               (prevRedSaturation d) (currentLuminance fr) p)
                            (redFlashTimestamps d) (currentTime fr))))));
      [lia | reflexivity]. }
  cbv zeta. cbn [outcome]. fold c. rewrite Hverdict. fields.
  split; [reflexivity|]. subst c. unfold counted. fields.
  split; assumption.
Qed.

(** X3: flashes that come more than 500 ms apart never raise a warning.
    From windows whose timestamps are more than 500 ms apart (empty ones,
    say), over any sequence of calls in which every classified frame comes
    more than 500 ms after the one before, no warning is dispatched,
    whatever the frames hold. *)
Theorem slow_flashes_never_warn (fs : list (option Frame)) (d : FlashDetector)
    (T : Z) :
  gapped T (flashTimestamps d) ->
  gapped T (redFlashTimestamps d) ->
  slow T d fs ->
  snd (analyzeFrames d fs) = [].
Proof.
  revert d T. induction fs as [|f fs IH]; intros d T Hgf Hgr Hslow;
    [reflexivity|].
  rewrite analyzeFrames_cons. cbn [snd]. cbn [slow] in Hslow.
  rewrite analyzeFrame_path in *.
  destruct (path d f) as [| | |fr|fr p] eqn:Hpath.
  - cbn [outcome fst snd emit] in *. exact (IH d T Hgf Hgr Hslow).
  - cbn [outcome fst snd emit] in *.
    apply (IH _ T); [exact Hgf | exact Hgr | exact Hslow].
  - cbn [outcome fst snd emit] in *.
    apply (IH _ T); [exact Hgf | exact Hgr | exact Hslow].
  - cbn [outcome fst snd emit] in *.
    apply (IH _ T); [exact Hgf | exact Hgr | exact Hslow].
  - destruct Hslow as [HT Hslow].
    destruct (slow_step T d fr p Hgf Hgr HT) as (Hn & G1 & G2).
    rewrite Hn. cbn [emit].
    exact (IH _ _ G1 G2 Hslow).
Qed.

(** X3 at work: a strobe of full contrast every 600 ms. *)
Lemma slow_flashes_never_warn_witness :
  gapped 0 (flashTimestamps (warmedUp 0.5 0))
  /\ gapped 0 (redFlashTimestamps (warmedUp 0.5 0))
  /\ slow 0 (warmedUp 0.5 0) slowStrobe
  /\ snd (analyzeFrames (warmedUp 0.5 0) slowStrobe) = [].
Proof.
  assert (H1 : gapped 0 (flashTimestamps (warmedUp 0.5 0))) by exact I.
  assert (H2 : gapped 0 (redFlashTimestamps (warmedUp 0.5 0))) by exact I.
  assert (H3 : slow 0 (warmedUp 0.5 0) slowStrobe).
  { vm_compute. repeat split. }
  split; [exact H1|]. split; [exact H2|]. split; [exact H3|].
  apply (slow_flashes_never_warn slowStrobe (warmedUp 0.5 0) 0 H1 H2 H3).
Defined.

(** *** Dark frames *)

(** An analysed frame after the warmup that meets the dark-frame guard is
    stored and nothing else. *)
Lemma analyzeFrame_dark (d : FlashDetector) (fr : Frame) :
  proceeds d = true ->
  (WARMUP_FRAMES <= analyzedFrameCount d)%N ->
  darkGuard (currentLuminance fr) (prevLuminance d) = true ->
  analyzeFrame d (Some fr) = (stored d fr, None).
Proof.
  unfold proceeds. intros Ha Hw Hg.
  apply andb_true_iff in Ha. destruct Ha as [Hv Hs].
  apply negb_true_iff in Hv.
  rewrite analyzeFrame_path. unfold path. rewrite Hv, Hs. cbn [negb].
  destruct (N.leb_spec (analyzedFrameCount d + 1) WARMUP_FRAMES); [lia|].
  rewrite Hg. reflexivity.
Qed.

(** X4: a dark frame takes two comparisons out.  After the warmup, an
    analysed frame of luminance below [MIN_BRIGHTNESS] records nothing, and
    neither does the analysed frame after it, whatever it holds: windows,
    [totalFlashes] and [maxFlashesPerSecond] are what they were, no warning
    is dispatched, and the second frame becomes the previous one. *)
Theorem dark_frame_suppresses_two_comparisons (d : FlashDetector)
    (fr1 fr2 : Frame) (x : option Frame) :
  proceeds d = true ->
  (WARMUP_FRAMES <= analyzedFrameCount d)%N ->
  JS.lt (currentLuminance fr1) MIN_BRIGHTNESS = true ->
  let r := analyzeFrames d [Some fr1; x; Some fr2] in
  snd r = []
  /\ flashTimestamps (fst r) = flashTimestamps d
  /\ redFlashTimestamps (fst r) = redFlashTimestamps d
  /\ totalFlashes (fst r) = totalFlashes d
  /\ maxFlashesPerSecond (fst r) = maxFlashesPerSecond d
  /\ prevLuminance (fst r) = Some (currentLuminance fr2)
  /\ analyzedFrameCount (fst r) = (analyzedFrameCount d + 2)%N.
Proof.
  intros Ha Hw Hdark.
  assert (E1 : analyzeFrame d (Some fr1) = (stored d fr1, None)).
  { apply analyzeFrame_dark; try assumption.
    unfold darkGuard. rewrite Hdark. reflexivity. }
  unfold proceeds in Ha. apply andb_true_iff in Ha. destruct Ha as [Hv Hs].
  apply negb_true_iff in Hv. apply N.eqb_eq in Hs.
  set (d1 := stored d fr1) in *.
  assert (E2 : analyzeFrame d1 x = (set_frameCount (frameCount d1 + 1) d1, None)).
  { apply analyzeFrame_skipped.
    - subst d1. unfold stored. fields. exact Hv.
    - subst d1. unfold stored. fields. apply N.eqb_neq.
      unfold skipFrames in *. lia. }
  set (d2 := set_frameCount (frameCount d1 + 1) d1) in *.
  assert (E3 : analyzeFrame d2 (Some fr2) = (stored d2 fr2, None)).
  { apply analyzeFrame_dark.
    - subst d2 d1. unfold proceeds, stored. fields. rewrite Hv.
      cbn [negb andb]. apply N.eqb_eq. unfold skipFrames in *. lia.
    - subst d2 d1. unfold stored. fields. lia.
    - subst d2 d1. unfold stored, darkGuard. fields. rewrite Hdark.
      apply orb_true_r. }
  cbv zeta.
  rewrite analyzeFrames_cons, E1. cbn [fst snd].
  rewrite analyzeFrames_cons, E2. cbn [fst snd].
  rewrite analyzeFrames_cons, E3. cbn [fst snd].
  subst d2 d1. unfold stored. cbn [analyzeFrames run map fst snd emit].
  fields. repeat split. lia.
Qed.

(** X4 at work: luminance going from 0.5 to 0.02 and on to 0.95. *)
Lemma dark_frame_suppresses_two_comparisons_witness :
  proceeds (warmedUp 0.5 0) = true
  /\ JS.lt 0.02 MIN_BRIGHTNESS = true
  /\ snd (analyzeFrames (warmedUp 0.5 0)
            [Some (lumFrame 100 0.02); None; Some (lumFrame 200 0.95)]) = []
  /\ totalFlashes
       (fst (analyzeFrames (warmedUp 0.5 0)
               [Some (lumFrame 100 0.02); None; Some (lumFrame 200 0.95)]))
     = 0%N.
Proof.
  assert (H1 : proceeds (warmedUp 0.5 0) = true) by reflexivity.
  assert (H2 : (WARMUP_FRAMES <= analyzedFrameCount (warmedUp 0.5 0))%N)
    by (vm_compute; discriminate).
  assert (H3 : JS.lt (currentLuminance (lumFrame 100 0.02)) MIN_BRIGHTNESS
               = true) by reflexivity.
  destruct (dark_frame_suppresses_two_comparisons (warmedUp 0.5 0)
              (lumFrame 100 0.02) (lumFrame 200 0.95) None H1 H2 H3)
    as (Hn & _ & _ & Ht & _).
  split; [exact H1|]. split; [exact H3|]. split; [exact Hn | exact Ht].
Defined.

(** *** The statistics *)

Lemma analyzeFrame_statisticsConsistent (d : FlashDetector) (f : option Frame) :
  statisticsConsistent d -> statisticsConsistent (fst (analyzeFrame d f)).
Proof.
  unfold statisticsConsistent. intros [H1 H2]. rewrite analyzeFrame_path.
  destruct (path d f) as [| | |fr|fr p]; cbn [outcome]; unfold stored; fields;
    try (split; assumption).
  destruct (classified_state d fr p) as (Hf & _ & Ht & Hm & _).
  cbn [outcome] in Hf, Ht, Hm. rewrite Hf, Ht, Hm. unfold counted. fields.
  pose proof (filter_length_le (inWindow (currentTime fr))
                (pushIf (generalFlash (currentLuminance fr) p)
                   (flashTimestamps d) (currentTime fr))) as Hle.
  destruct (generalFlash (currentLuminance fr) p); cbn [pushIf] in *;
    [rewrite length_app in Hle; cbn [length] in Hle|]; lia.
Qed.

Lemma call_statisticsConsistent (d : FlashDetector) (c : Call) :
  statisticsConsistent d -> statisticsConsistent (fst (call d c)).
Proof.
  intros H. destruct c; cbn [call fst].
  - apply analyzeFrame_statisticsConsistent. exact H.
  - unfold start. destruct (isAnalyzing d); [exact H|].
    apply analyzeFrame_statisticsConsistent.
    unfold statisticsConsistent, resetDetectionState. fields. cbn. lia.
  - exact H.
  - unfold statisticsConsistent, resetDetectionState in *. fields. cbn. lia.
  - unfold statisticsConsistent, resetWarning, resetDetectionState in *.
    fields. cbn. lia.
  - exact H.
Qed.

(** X5: whatever is done to a detector after its construction (frames,
    [start()], [stop()], resets, the video changing state),
    [maxFlashesPerSecond] is at least the size of the general window and at
    most [totalFlashes]. *)
Theorem statistics_stay_consistent (v : Video) (cs : list Call) :
  let d := fst (run (constructor v) cs) in
  (N.of_nat (length (flashTimestamps d)) <= maxFlashesPerSecond d)%N
  /\ (maxFlashesPerSecond d <= totalFlashes d)%N.
Proof.
  cbv zeta.
  assert (H : forall (cs : list Call) (d : FlashDetector),
             statisticsConsistent d -> statisticsConsistent (fst (run d cs))).
  { clear. induction cs as [|c cs IH]; intros d H; [exact H|].
    cbn [run]. pose proof (call_statisticsConsistent d c H) as H1.
    destruct (call d c) as [d1 w]. cbn [fst] in H1.
    specialize (IH d1 H1). destruct (run d1 cs) as [d2 ws]. exact IH. }
  apply H. unfold statisticsConsistent. cbn. lia.
Qed.

(** *** Starting and stopping *)

Lemma analyzeFrame_isAnalyzing (d : FlashDetector) (f : option Frame) :
  isAnalyzing (fst (analyzeFrame d f)) = isAnalyzing d.
Proof.
  rewrite analyzeFrame_path.
  destruct (path d f) as [| | |fr|fr p]; cbn [outcome]; unfold stored; fields;
    try reflexivity.
  pose proof (verdict_state (counted d fr p) (position fr)) as H.
  destruct (verdict (counted d fr p) (position fr)) as [c w].
  fields. destruct H as (_ & _ & _ & _ & _ & _ & H). exact H.
Qed.

(** X6: [start()] never dispatches a warning and leaves the detector
    analysing, so that a second [start()] changes nothing (statistics
    included); on a detector that was not analysing it leaves the latch
    clear, both counters at zero, both windows empty and at most one frame
    analysed. *)
Theorem start_once (d : FlashDetector) (f : option Frame) :
  let d' := fst (start d f) in
  snd (start d f) = None
  /\ isAnalyzing d' = true
  /\ (forall f' : option Frame, start d' f' = (d', None))
  /\ (isAnalyzing d = false ->
      warningShown d' = false
      /\ totalFlashes d' = 0%N
      /\ maxFlashesPerSecond d' = 0%N
      /\ flashTimestamps d' = []
      /\ redFlashTimestamps d' = []
      /\ (analyzedFrameCount d' <= 1)%N).
Proof.
  cbv zeta.
  assert (Hi : isAnalyzing (fst (start d f)) = true).
  { unfold start. destruct (isAnalyzing d) eqn:E; [exact E|].
    rewrite analyzeFrame_isAnalyzing. reflexivity. }
  assert (Hfresh : isAnalyzing d = false ->
                   snd (start d f) = None
                   /\ warningShown (fst (start d f)) = false
                   /\ totalFlashes (fst (start d f)) = 0%N
                   /\ maxFlashesPerSecond (fst (start d f)) = 0%N
                   /\ flashTimestamps (fst (start d f)) = []
                   /\ redFlashTimestamps (fst (start d f)) = []
                   /\ (analyzedFrameCount (fst (start d f)) <= 1)%N).
  { intros E. unfold start. rewrite E. rewrite analyzeFrame_path.
    unfold path, resetDetectionState. fields.
    destruct (paused (video d) || ended (video d));
      [cbn [outcome fst snd]; fields; repeat split; lia|].
    destruct (negb ((frameCount d + 1) mod skipFrames =? 0)%N);
      [cbn [outcome fst snd]; fields; repeat split; lia|].
    destruct f as [fr|];
      [|cbn [outcome fst snd]; fields; repeat split; lia].
    cbn [outcome fst snd]. unfold stored. fields. repeat split. cbn. lia. }
  split; [|split; [exact Hi | split]].
  - destruct (isAnalyzing d) eqn:E; [|apply Hfresh; reflexivity].
    unfold start. rewrite E. reflexivity.
  - intros f'. unfold start at 1. rewrite Hi. reflexivity.
  - intros E. apply Hfresh in E. tauto.
Qed.

Lemma verdict_isAnalyzing (b : bool) (c : FlashDetector) (pos : float) :
  verdict (set_isAnalyzing b c) pos
  = (set_isAnalyzing b (fst (verdict c pos)), snd (verdict c pos)).
Proof.
  unfold verdict, triggerWarning. fields.
  destruct (FLASH_FREQUENCY <=? N.of_nat (length (flashTimestamps c)))%N;
    [destruct (warningShown c); reflexivity|].
  destruct (FLASH_FREQUENCY <=? N.of_nat (length (redFlashTimestamps c)))%N;
    [destruct (warningShown c); reflexivity | reflexivity].
Qed.

Lemma analyzeFrame_after_stop (d : FlashDetector) (f : option Frame) :
  analyzeFrame (stop d) f
  = (stop (fst (analyzeFrame d f)), snd (analyzeFrame d f)).
Proof.
  rewrite !analyzeFrame_path. unfold stop.
  change (path (set_isAnalyzing false d) f) with (path d f).
  destruct (path d f) as [| | |fr|fr p]; cbn [outcome fst snd];
    try reflexivity.
  change (counted (set_isAnalyzing false d) fr p)
    with (set_isAnalyzing false (counted d fr p)).
  rewrite verdict_isAnalyzing.
  destruct (verdict (counted d fr p) (position fr)) as [c w]. reflexivity.
Qed.

(** X7: [stop()] does not freeze the detection.  It only clears
    [isAnalyzing], which [analyzeFrame] never reads when it classifies:
    frames fed after [stop()] are counted, classified and warned about
    exactly as they are without it. *)
Theorem stop_does_not_freeze_detection (d : FlashDetector)
    (fs : list (option Frame)) :
  analyzeFrames (stop d) fs
  = (stop (fst (analyzeFrames d fs)), snd (analyzeFrames d fs)).
Proof.
  revert d. induction fs as [|f fs IH]; intros d; [reflexivity|].
  rewrite !analyzeFrames_cons, analyzeFrame_after_stop. cbn [fst snd].
  rewrite IH. reflexivity.
Qed.

(** *** What the metrics read *)

Lemma sampled_offset (i k : nat) :
  (i mod 16 = 0)%nat -> (k < 3)%nat -> ((i + k) mod 16 < 3)%nat.
Proof.
  intros Hi Hk. rewrite Nat.Div0.add_mod, Hi. cbn [Nat.add].
  rewrite Nat.Div0.mod_mod, Nat.mod_small by lia. exact Hk.
Qed.

Lemma next_sample (i : nat) :
  (i mod 16 = 0)%nat -> ((i + 16) mod 16 = 0)%nat.
Proof.
  intros Hi. change (i + 16)%nat with (i + 1 * 16)%nat.
  rewrite Nat.Div0.mod_add. exact Hi.
Qed.

Lemma channel_sampled (data data' : list Z) (i k : nat) :
  (forall j, sampledByte j = true -> nth_error data j = nth_error data' j) ->
  (i mod 16 = 0)%nat -> (k < 3)%nat ->
  channel data (i + k) = channel data' (i + k).
Proof.
  intros H Hi Hk. unfold channel. rewrite (H (i + k)%nat); [reflexivity|].
  unfold sampledByte. apply Nat.ltb_lt. apply sampled_offset; assumption.
Qed.

(** X8: the two metrics read the red, green and blue byte of every fourth
    pixel and nothing else: two buffers of the same length that agree on
    those bytes have the same luminance and the same red saturation,
    whatever the other three pixels of each group of four and all alpha
    bytes hold. *)
Theorem metrics_read_sampled_bytes_only (Math_pow : float -> float -> float)
    (data data' : list Z) :
  length data = length data' ->
  (forall i, sampledByte i = true -> nth_error data i = nth_error data' i) ->
  calculateLuminance Math_pow data = calculateLuminance Math_pow data'
  /\ calculateRedSaturation data = calculateRedSaturation data'.
Proof.
  intros Hlen H.
  assert (Hpix : forall i, (i mod 16 = 0)%nat ->
                   pixelLuminance Math_pow data i
                   = pixelLuminance Math_pow data' i
                   /\ saturatedRed data i = saturatedRed data' i).
  { intros i Hi. unfold pixelLuminance, saturatedRed.
    pose proof (channel_sampled data data' i 0 H Hi) as C0.
    rewrite Nat.add_0_r in C0.
    rewrite C0, (channel_sampled data data' i 1 H Hi),
      (channel_sampled data data' i 2 H Hi) by lia.
    split; reflexivity. }
  assert (Hlum : forall fuel i total, (i mod 16 = 0)%nat ->
                   luminanceLoop Math_pow data fuel i total
                   = luminanceLoop Math_pow data' fuel i total).
  { induction fuel as [|fuel IH]; intros i total Hi; [reflexivity|].
    cbn [luminanceLoop]. rewrite <- Hlen.
    destruct (i <? length data)%nat; [|reflexivity].
    destruct (Hpix i Hi) as [-> _]. apply IH. apply next_sample. exact Hi. }
  assert (Hred : forall fuel i total, (i mod 16 = 0)%nat ->
                   redLoop data fuel i total = redLoop data' fuel i total).
  { induction fuel as [|fuel IH]; intros i total Hi; [reflexivity|].
    cbn [redLoop]. rewrite <- Hlen.
    destruct (i <? length data)%nat; [|reflexivity].
    destruct (Hpix i Hi) as [_ ->]. apply IH. apply next_sample. exact Hi. }
  unfold calculateLuminance, calculateRedSaturation.
  rewrite <- Hlen, Hlum, Hred by reflexivity. split; reflexivity.
Qed.

(** X8 at work: five pixels, of which only the first and the fifth
    count. *)
Lemma metrics_read_sampled_bytes_only_witness :
  length fivePixels = length fivePixelsOtherwise
  /\ calculateRedSaturation fivePixels
     = calculateRedSaturation fivePixelsOtherwise.
Proof.
  assert (H : forall i, sampledByte i = true ->
                nth_error fivePixels i = nth_error fivePixelsOtherwise i).
  { intros i Hi.
    do 20 (destruct i as [|i];
           [first [reflexivity | vm_compute in Hi; discriminate Hi]|]).
    reflexivity. }
  split; [reflexivity|].
  apply (metrics_read_sampled_bytes_only (fun _ _ => 0%float)
           fivePixels fivePixelsOtherwise eq_refl H).
Defined.

(** X9: on a frame of at most four pixels the loop takes one sample and
    divides by a quarter of the pixel count: the red saturation is 0 when
    the first pixel is not saturated red and 4 / n for n pixels when it is,
    which is more than 1 for fewer than four pixels. *)
Theorem few_pixels_red_saturation (data : list Z) (n : nat) :
  length data = (4 * n)%nat ->
  (1 <= n <= 4)%nat ->
  calculateRedSaturation data
  = if saturatedRed data 0 then (4 / JS.ofZ (Z.of_nat n))%float else 0%float.
Proof.
  intros Hlen Hn.
  assert (Hcases : n = 1%nat \/ n = 2%nat \/ n = 3%nat \/ n = 4%nat) by lia.
  destruct Hcases as [-> | [-> | [-> | ->]]];
    cbn [Nat.mul Nat.add] in Hlen;
    repeat (destruct data as [|? data]; [discriminate Hlen|]);
    (destruct data; [|discriminate Hlen]);
    unfold calculateRedSaturation; cbn [length redLoop Nat.ltb Nat.leb];
    match goal with
    | |- context [saturatedRed ?l 0] => generalize (saturatedRed l 0)
    end;
    intros [|]; vm_compute; reflexivity.
Qed.

(** X9 at work: a single saturated red pixel has a red saturation of 4. *)
Lemma few_pixels_red_saturation_witness :
  calculateRedSaturation [255; 0; 0; 255]%Z = 4%float.
Proof.
  rewrite (few_pixels_red_saturation [255; 0; 0; 255]%Z 1 eq_refl);
    [reflexivity | lia].
Defined.

(** * The background service worker and the popup: proofs *)

Module BackgroundFacts.

Import String.
Import Background.
Local Open Scope string_scope.

(** ** The platform of a URL *)

Lemma prefix_append (lit s : string) :
  prefix lit s = true <-> exists post, s = lit ++ post.
Proof.
  revert s. induction lit as [|a lit IH]; intros s.
  - destruct s; cbn; split; eauto.
  - destruct s as [|b s]; cbn [prefix].
    + split; [discriminate | intros [post H]; discriminate].
    + destruct (Ascii.ascii_dec a b) as [->|Hne].
      * rewrite IH. split; intros [post H]; exists post.
        -- cbn. rewrite H. reflexivity.
        -- cbn in H. injection H as H. exact H.
      * split; [discriminate|]. intros [post H]. cbn in H.
        injection H as H _. congruence.
Qed.

(** [occursIn] finds exactly the substrings. *)
Lemma occursIn_spec (lit s : string) :
  occursIn lit s = true <-> exists pre post, s = pre ++ lit ++ post.
Proof.
  split.
  - induction s as [|c s IH]; cbn [occursIn].
    + destruct (prefix lit "") eqn:E; [|discriminate].
      intros _. apply prefix_append in E. destruct E as [post E].
      exists "", post. exact E.
    + destruct (prefix lit (String c s)) eqn:E.
      * intros _. apply prefix_append in E. destruct E as [post E].
        exists "", post. exact E.
      * intros H. destruct (IH H) as (pre & post & ->).
        exists (String c pre), post. reflexivity.
  - intros (pre & post & ->). induction pre as [|c pre IH].
    + cbn [append].
      assert (E : prefix lit (lit ++ post) = true)
        by (apply prefix_append; eauto).
      destruct (lit ++ post); cbn [occursIn]; rewrite E; reflexivity.
    + cbn [append occursIn]. rewrite IH.
      destruct (prefix lit (String c (pre ++ lit ++ post))); reflexivity.
Qed.

Lemma test_spec (regex : Regex) (u : string) :
  test regex u = true <->
  exists lit pre post, In lit regex /\ u = pre ++ lit ++ post.
Proof.
  unfold test. rewrite existsb_exists. split.
  - intros (lit & Hin & H). apply occursIn_spec in H.
    destruct H as (pre & post & H). exists lit, pre, post. tauto.
  - intros (lit & pre & post & Hin & H). exists lit. split; [exact Hin|].
    apply occursIn_spec. eauto.
Qed.

Lemma find_first {A : Type} (f : A -> bool) (l : list A) (x : A) :
  find f l = Some x <->
  exists before after,
    l = (before ++ x :: after)%list
    /\ f x = true
    /\ Forall (fun y => f y = false) before.
Proof.
  induction l as [|a l IH]; cbn [find].
  - split; [discriminate|]. intros (before & after & H & _).
    destruct before; discriminate.
  - destruct (f a) eqn:E.
    + split.
      * intros H. injection H as <-. exists [], l. repeat split; auto.
      * intros (before & after & H & Hx & Hall).
        destruct before as [|b before].
        -- cbn in H. injection H as -> _. reflexivity.
        -- cbn in H. injection H as -> _. apply Forall_inv in Hall.
           congruence.
    + rewrite IH. split.
      * intros (before & after & -> & Hx & Hall).
        exists (a :: before), after. repeat split; auto.
      * intros (before & after & H & Hx & Hall).
        destruct before as [|b before].
        -- cbn in H. injection H as -> _. congruence.
        -- cbn in H. injection H as -> ->. apply Forall_inv_tail in Hall.
           exists before, after. repeat split; auto.
Qed.

(** X10: [getPlatformFromUrl] returns a platform exactly for a non-empty
    URL, and then the first platform, in the order of [platformMatchers],
    of which one literal occurs somewhere in the URL; a URL that is
    missing, empty or free of all literals gives [null]. *)
Theorem platform_is_first_match (url : option string) (p : Platform) :
  getPlatformFromUrl url = Some p <->
  exists (u : string) (before : list (Platform * Regex)) (regex : Regex)
         (after : list (Platform * Regex)),
    url = Some u
    /\ u <> ""
    /\ platformMatchers = (before ++ (p, regex) :: after)%list
    /\ (exists lit pre post, In lit regex /\ u = pre ++ lit ++ post)
    /\ (forall q regex' lit pre post,
          In (q, regex') before -> In lit regex' -> u <> pre ++ lit ++ post).
Proof.
  unfold getPlatformFromUrl. split.
  - destruct url as [u|]; [|discriminate].
    destruct (u =? "") eqn:Eu; [discriminate|].
    destruct (find (fun entry => test (snd entry) u) platformMatchers)
      as [[q regex]|] eqn:Ef; [|discriminate].
    intros H. injection H as ->.
    apply find_first in Ef. destruct Ef as (before & after & Hl & Ht & Hall).
    exists u, before, regex, after.
    split; [reflexivity|]. split; [apply eqb_neq; exact Eu|].
    split; [exact Hl|]. split; [apply test_spec; exact Ht|].
    intros q regex' lit pre post Hin Hlit Hu.
    rewrite Forall_forall in Hall. specialize (Hall _ Hin). cbn [snd] in Hall.
    assert (Ht' : test regex' u = true) by (apply test_spec; eauto).
    congruence.
  - intros (u & before & regex & after & -> & Hu & Hl & Hocc & Hnone).
    apply eqb_neq in Hu. rewrite Hu.
    assert (Ef : find (fun entry => test (snd entry) u) platformMatchers
                 = Some (p, regex)).
    { apply find_first. exists before, after. split; [exact Hl|].
      split; [apply test_spec; exact Hocc|].
      apply Forall_forall. intros [q regex'] Hin. cbn [snd].
      destruct (test regex' u) eqn:Et; [|reflexivity].
      apply test_spec in Et. destruct Et as (lit & pre & post & Hlit & E).
      destruct (Hnone q regex' lit pre post Hin Hlit E). }
    rewrite Ef. reflexivity.
Qed.

Lemma append_not_empty (pre lit post : string) :
  lit <> "" -> pre ++ lit ++ post <> "".
Proof.
  intros Hlit H. destruct pre; [|discriminate].
  destruct lit; [congruence | discriminate].
Qed.

(** X11: the literals are looked for anywhere in the URL: every URL in
    which [x.com] occurs, as in [netflix.com], and in which neither
    [youtube.com] nor [tiktok.com] occurs, is taken for Twitter. *)
Theorem x_com_anywhere_is_twitter (pre post : string) :
  let u := pre ++ "x.com" ++ post in
  occursIn "youtube.com" u = false ->
  occursIn "tiktok.com" u = false ->
  getPlatformFromUrl (Some u) = Some twitter.
Proof.
  intros u Hy Ht. unfold getPlatformFromUrl.
  assert (Hu : (u =? "") = false).
  { apply eqb_neq. apply append_not_empty. discriminate. }
  assert (Hx : occursIn "x.com" u = true).
  { apply occursIn_spec. exists pre, post. reflexivity. }
  rewrite Hu. cbn [platformMatchers find snd fst test existsb].
  rewrite Hy, Ht, Hx. cbn [orb]. rewrite orb_true_r. reflexivity.
Qed.

(** X11 at work. *)
Lemma x_com_anywhere_is_twitter_witness :
  getPlatformFromUrl (Some "https://www.netflix.com/browse") = Some twitter.
Proof.
  apply (x_com_anywhere_is_twitter "https://www.netfli" "/browse");
    reflexivity.
Defined.

(** ** The statistics in storage *)

Import Accounting.

Lemma applyUpdate_adds (st : Stats) (request : Request) :
  applyUpdate st request = counting st [request].
Proof.
  unfold applyUpdate, counting, tally, flashTally. cbn [filter fold_right].
  destruct st as [vm wi fd]. cbn [videosMonitored warningsIssued flashesDetected].
  destruct (stat request =? "videoMonitored");
    destruct (stat request =? "warningIssued");
    destruct (stat request =? "flashDetected");
    cbn [List.length videosMonitored warningsIssued flashesDetected];
    f_equal; lia.
Qed.

Lemma counting_cons (st : Stats) (request : Request)
    (requests : list Request) :
  counting (counting st [request]) requests = counting st (request :: requests).
Proof.
  unfold counting, tally, flashTally. cbn [filter fold_right].
  cbn [videosMonitored warningsIssued flashesDetected].
  destruct (stat request =? "videoMonitored");
    destruct (stat request =? "warningIssued");
    destruct (stat request =? "flashDetected");
    cbn [List.length]; f_equal; lia.
Qed.

Lemma counting_nil (st : Stats) : counting st [] = st.
Proof.
  destruct st. unfold counting, tally, flashTally.
  cbn. f_equal; lia.
Qed.

(** One [updateStats] message: both areas get the statistics read from
    local storage with the update counted in; the settings stay. *)
Lemma onMessage_updateStats (s : Storage) (request : Request) :
  action request = "updateStats" ->
  let s' := fst (onMessage s request) in
  let st := applyUpdate (statsOrZero (localArea s)) request in
  stats (localArea s') = Some st
  /\ stats (syncArea s') = Some st
  /\ enabled (localArea s') = enabled (localArea s)
  /\ autoPause (localArea s') = autoPause (localArea s)
  /\ enabled (syncArea s') = enabled (syncArea s)
  /\ autoPause (syncArea s') = autoPause (syncArea s).
Proof.
  intros Ha. unfold onMessage. rewrite Ha. cbn. repeat split.
Qed.

Lemma onMessages_counts (requests : list Request) (s : Storage) (st : Stats) :
  Forall (fun r => action r = "updateStats") requests ->
  stats (localArea s) = Some st ->
  stats (syncArea s) = Some st ->
  let s' := onMessages s requests in
  stats (localArea s') = Some (counting st requests)
  /\ stats (syncArea s') = Some (counting st requests)
  /\ enabled (localArea s') = enabled (localArea s)
  /\ autoPause (localArea s') = autoPause (localArea s)
  /\ enabled (syncArea s') = enabled (syncArea s)
  /\ autoPause (syncArea s') = autoPause (syncArea s).
Proof.
  intros Hall. revert s st.
  induction Hall as [|r rs Hr _ IH]; intros s st Hl Hs.
  - cbn. rewrite counting_nil. repeat split; assumption.
  - cbv zeta. unfold onMessages. cbn [fold_left].
    fold (onMessages (fst (onMessage s r)) rs).
    destruct (onMessage_updateStats s r Hr) as (H1 & H2 & H3 & H4 & H5 & H6).
    assert (Hst : statsOrZero (localArea s) = st)
      by (unfold statsOrZero; rewrite Hl; reflexivity).
    rewrite Hst, applyUpdate_adds in H1, H2.
    destruct (IH _ _ H1 H2) as (I1 & I2 & I3 & I4 & I5 & I6).
    rewrite counting_cons in I1, I2.
    repeat split; congruence.
Qed.

(** X12: the queue of the Halo service worker counts every message once.
    After any non-empty sequence of [updateStats] messages, local and sync
    storage hold the same statistics: those that local storage held before
    (zeros if it held none), plus one video or warning per
    [videoMonitored] or [warningIssued] message and [count || 1] flashes
    per [flashDetected] message; the settings are untouched. *)
Theorem messages_are_counted (s : Storage) (requests : list Request) :
  Forall (fun r => action r = "updateStats") requests ->
  requests <> [] ->
  let s' := onMessages s requests in
  let st := counting (statsOrZero (localArea s)) requests in
  stats (localArea s') = Some st
  /\ stats (syncArea s') = Some st
  /\ enabled (localArea s') = enabled (localArea s)
  /\ autoPause (localArea s') = autoPause (localArea s)
  /\ enabled (syncArea s') = enabled (syncArea s)
  /\ autoPause (syncArea s') = autoPause (syncArea s).
Proof.
  intros Hall Hne. destruct requests as [|r rs]; [congruence|].
  cbv zeta. unfold onMessages. cbn [fold_left].
  fold (onMessages (fst (onMessage s r)) rs).
  destruct (onMessage_updateStats s r (Forall_inv Hall))
    as (H1 & H2 & H3 & H4 & H5 & H6).
  rewrite applyUpdate_adds in H1, H2.
  destruct (onMessages_counts rs _ _ (Forall_inv_tail Hall) H1 H2)
    as (I1 & I2 & I3 & I4 & I5 & I6).
  rewrite counting_cons in I1, I2.
  repeat split; congruence.
Qed.

(** X12 at work: a video, a warning and its flashes. *)
Lemma messages_are_counted_witness :
  stats (syncArea
           (onMessages usedStorage
              (ContentScript.videoMonitored
               :: ContentScript.warningRequests
                    {| type := general; flashCount := 3;
                       w_maxFlashesPerSecond := 3; w_totalFlashes := 5;
                       timestamp := 0 |})))
  = Some {| videosMonitored := 8; warningsIssued := 3;
            flashesDetected := 14 |}.
Proof.
  refine (proj1 (proj2 (messages_are_counted usedStorage _ _ _))).
  - repeat constructor.
  - discriminate.
Defined.

(** X13: the reset button of the popup does not outlast the next message.
    It zeroes the statistics of sync storage only, and the service worker
    reads local storage: after an [updateStats] message the storage is what
    it would be had the button not been clicked, and the popup shows the
    old statistics with the update counted in.  After [resetStats()] of
    the service worker, which zeroes both areas, it shows the update
    alone. *)
Theorem popup_reset_is_undone (s : Storage) (request : Request) :
  action request = "updateStats" ->
  popupStats (popupResetStats s) = Some zeroStats
  /\ onMessage (popupResetStats s) request = onMessage s request
  /\ popupStats (fst (onMessage (popupResetStats s) request))
     = Some (applyUpdate (statsOrZero (localArea s)) request)
  /\ popupStats (fst (onMessage (resetStats s) request))
     = Some (applyUpdate zeroStats request).
Proof.
  intros Ha. unfold onMessage, popupResetStats, resetStats, popupStats.
  rewrite Ha. cbn. repeat split.
Qed.

(** X13 at work: seven videos monitored, reset, one more video. *)
Lemma popup_reset_is_undone_witness :
  popupStats (fst (onMessage (popupResetStats usedStorage)
                     ContentScript.videoMonitored))
  = Some {| videosMonitored := 8; warningsIssued := 2; flashesDetected := 9 |}.
Proof.
  exact (proj1 (proj2 (proj2
           (popup_reset_is_undone usedStorage ContentScript.videoMonitored
              eq_refl)))).
Defined.

(** X14: statistics that only sync storage holds, as the earlier service
    worker left them, survive the update of the extension and are lost at
    the first message after it: the [onInstalled] listener keeps them in
    sync storage without copying them to local storage, and the message
    listener then counts from zero and overwrites them. *)
Theorem sync_only_statistics_are_lost (s : Storage) (st : Stats)
    (request : Request) :
  stats (localArea s) = None ->
  stats (syncArea s) = Some st ->
  action request = "updateStats" ->
  let s1 := onInstalled "update" s in
  let s2 := fst (onMessage s1 request) in
  stats (syncArea s1) = Some st
  /\ stats (localArea s1) = None
  /\ stats (syncArea s2) = Some (applyUpdate zeroStats request)
  /\ stats (localArea s2) = Some (applyUpdate zeroStats request).
Proof.
  intros Hl Hs Ha. unfold onInstalled, onMessage, updatesOnUpdate, statsOrZero.
  cbn. rewrite ?Hl, ?Hs, ?Ha. cbn. rewrite ?Hl, ?Hs. cbn. repeat split.
Qed.

(** X14 at work: twelve videos monitored under the earlier service
    worker, one left after the update. *)
Lemma sync_only_statistics_are_lost_witness :
  stats (syncArea
           (fst (onMessage (onInstalled "update" earlierStorage)
                   ContentScript.videoMonitored)))
  = Some {| videosMonitored := 1; warningsIssued := 0; flashesDetected := 0 |}.
Proof.
  exact (proj1 (proj2 (proj2
           (sync_only_statistics_are_lost earlierStorage _
              ContentScript.videoMonitored eq_refl eq_refl eq_refl)))).
Defined.

(** X15: the [onInstalled] listener on an update of the extension.  It
    keeps the settings that sync storage holds and sets the missing ones to
    [true]; the statistics of local storage, if any, replace those of sync
    storage; if neither area holds statistics both get zeros; local storage
    is written in no other case; and running the listener a second time
    changes nothing. *)
Theorem update_keeps_settings (s : Storage) :
  let s' := onInstalled "update" s in
  enabled (syncArea s')
  = Some match enabled (syncArea s) with Some b => b | None => true end
  /\ autoPause (syncArea s')
     = Some match autoPause (syncArea s) with Some b => b | None => true end
  /\ stats (syncArea s')
     = Some match stats (localArea s) with
            | Some st => st
            | None => statsOrZero (syncArea s)
            end
  /\ stats (localArea s')
     = match stats (localArea s), stats (syncArea s) with
       | Some st, _ => Some st
       | None, None => Some zeroStats
       | None, Some _ => None
       end
  /\ enabled (localArea s') = enabled (localArea s)
  /\ autoPause (localArea s') = autoPause (localArea s)
  /\ onInstalled "update" s' = s'.
Proof.
  destruct s as [[e1 a1 [st1|]] [[e2|] [a2|] [st2|]]];
    cbv zeta; unfold onInstalled, updatesOnUpdate, statsOrZero; cbn;
    repeat split.
Qed.

(** X16: what a warning adds to the statistics of the Halo service
    worker: one warning, no video, and the [totalFlashes] of the detector
    as flashes, or one flash when [totalFlashes] is zero, as it is for a
    warning that red flashes alone have raised. *)
Theorem warning_statistics (s : Storage) (w : Warning) :
  let st := statsOrZero (localArea s) in
  let s' := onMessages s (ContentScript.warningRequests w) in
  let st' :=
    {| videosMonitored := videosMonitored st;
       warningsIssued := warningsIssued st + 1;
       flashesDetected :=
         flashesDetected st
         + (if (w_totalFlashes w =? 0)%N then 1 else w_totalFlashes w) |} in
  stats (localArea s') = Some st' /\ stats (syncArea s') = Some st'.
Proof.
  cbv zeta.
  assert (Hall : Forall (fun r => action r = "updateStats")
                   (ContentScript.warningRequests w))
    by (repeat constructor).
  unfold onMessages, ContentScript.warningRequests. cbn [fold_left].
  destruct (onMessage_updateStats s ContentScript.warningIssued eq_refl)
    as (H1 & H2 & _).
  set (s1 := fst (onMessage s ContentScript.warningIssued)) in *.
  destruct (onMessage_updateStats s1
              (ContentScript.flashDetected (w_totalFlashes w)) eq_refl)
    as (I1 & I2 & _).
  assert (Hst : statsOrZero (localArea s1)
                = applyUpdate (statsOrZero (localArea s))
                    ContentScript.warningIssued)
    by (unfold statsOrZero at 1; rewrite H1; reflexivity).
  rewrite Hst in I1, I2. rewrite I1, I2.
  unfold applyUpdate, countOrOne. cbn. split; reflexivity.
Qed.

(** X17: the earlier service worker does not queue.  When the two messages
    of a warning are both read before either is saved, as two messages sent
    in a row are, the second save overwrites the first and the warning is
    not counted; handled one after the other, or by the queue of the Halo
    service worker, it is. *)
Theorem earlier_worker_loses_the_warning (s : Storage) (w : Warning) :
  let r1 := ContentScript.warningIssued in
  let r2 := ContentScript.flashDetected (w_totalFlashes w) in
  ContentScript.warningRequests w = [r1; r2]
  /\ warningsIssued (statsOrZero (syncArea (bothReadFirst s r1 r2)))
     = warningsIssued (statsOrZero (syncArea s))
  /\ warningsIssued
       (statsOrZero (syncArea (earlierOnMessage (earlierOnMessage s r1) r2)))
     = (warningsIssued (statsOrZero (syncArea s)) + 1)%N
  /\ warningsIssued (statsOrZero (syncArea (onMessages s [r1; r2])))
     = (warningsIssued (statsOrZero (localArea s)) + 1)%N.
Proof.
  cbv zeta. split; [reflexivity|].
  unfold bothReadFirst, earlierOnMessage, earlierWrite, earlierRead,
    onMessages, onMessage, applyUpdate, statsOrZero.
  cbn. repeat split.
Qed.

(** ** The tabs of each platform *)

Lemma has_add (tabs : TabSet) (tabId t : Z) :
  has (add tabId tabs) t = (t =? tabId)%Z || has tabs t.
Proof.
  unfold add. destruct (has tabs tabId) eqn:E.
  - destruct (t =? tabId)%Z eqn:Et; [|reflexivity].
    apply Z.eqb_eq in Et. rewrite Et. exact E.
  - unfold has. rewrite existsb_app. cbn [existsb].
    rewrite orb_false_r, orb_comm. reflexivity.
Qed.

Lemma has_delete (tabs : TabSet) (tabId t : Z) :
  has (delete tabId tabs) t = negb (t =? tabId)%Z && has tabs t.
Proof.
  unfold has, delete. induction tabs as [|a tabs IH]; cbn [filter existsb].
  - rewrite andb_false_r. reflexivity.
  - destruct (Z.eqb_spec a tabId) as [->|Ha]; cbn [negb existsb].
    + rewrite IH. destruct (t =? tabId)%Z; reflexivity.
    + rewrite IH. destruct (t =? a)%Z eqn:Eta; [|reflexivity].
      apply Z.eqb_eq in Eta. apply Z.eqb_neq in Ha. rewrite Eta, Ha.
      reflexivity.
Qed.

Lemma has_addTo (platform : option Platform) (tabs : PlatformTabs)
    (tabId t : Z) (p : Platform) :
  has (addTo platform tabId tabs p) t
  = match platform with
    | Some q => Platform_eqb p q && (t =? tabId)%Z
    | None => false
    end
    || has (tabs p) t.
Proof.
  destruct platform as [q|]; cbn [addTo]; [|reflexivity].
  destruct (Platform_eqb p q); [apply has_add | reflexivity].
Qed.

(** X18: a navigation moves the tab.  After the [onUpdated] listener has
    handled a change of URL, the tab is in the set of the platform of the
    new URL and in no other set, wherever it was before and whatever else
    the event reports. *)
Theorem tab_follows_navigation (tabs : PlatformTabs) (tabId : Z)
    (changeInfo : ChangeInfo) (tabUrl : option string) (p : Platform) :
  truthy (url changeInfo) = true ->
  has (onUpdated tabs tabId changeInfo tabUrl p) tabId
  = match getPlatformFromUrl (url changeInfo) with
    | Some q => Platform_eqb p q
    | None => false
    end.
Proof.
  intros Hurl. unfold onUpdated. rewrite Hurl.
  match goal with
  | |- context [if ?c then addTo ?pl tabId tabs else tabs] =>
      generalize (if c then addTo pl tabId tabs else tabs)
  end.
  intros tabs1. rewrite has_addTo, Z.eqb_refl.
  destruct (getPlatformFromUrl (url changeInfo)) as [q|].
  - destruct (Platform_eqb p q); cbn [andb orb negb]; [reflexivity|].
    rewrite andb_true_r.
    destruct (has (tabs1 p) tabId) eqn:E; [|exact E].
    rewrite has_delete, Z.eqb_refl. reflexivity.
  - cbn [orb negb]. rewrite andb_true_r.
    destruct (has (tabs1 p) tabId) eqn:E; [|exact E].
    rewrite has_delete, Z.eqb_refl. reflexivity.
Qed.

(** X18 at work: a tab on YouTube that navigates to Twitch. *)
Lemma tab_follows_navigation_witness :
  has (onUpdated (addTo (Some youtube) 7 noTabs) 7
         {| status := None; url := Some "https://www.twitch.tv/" |}
         (Some "https://www.youtube.com/") youtube) 7 = false
  /\ has (onUpdated (addTo (Some youtube) 7 noTabs) 7
            {| status := None; url := Some "https://www.twitch.tv/" |}
            (Some "https://www.youtube.com/") twitch) 7 = true.
Proof.
  split.
  - exact (tab_follows_navigation (addTo (Some youtube) 7 noTabs) 7
             {| status := None; url := Some "https://www.twitch.tv/" |}
             (Some "https://www.youtube.com/") youtube eq_refl).
  - exact (tab_follows_navigation (addTo (Some youtube) 7 noTabs) 7
             {| status := None; url := Some "https://www.twitch.tv/" |}
             (Some "https://www.youtube.com/") twitch eq_refl).
Defined.

Lemma has_addTo_other (platform : option Platform) (tabs : PlatformTabs)
    (tabId t : Z) (p : Platform) :
  (t =? tabId)%Z = false ->
  has (addTo platform tabId tabs p) t = has (tabs p) t.
Proof.
  intros Hne. rewrite has_addTo. destruct platform as [q|]; [|reflexivity].
  rewrite Hne, andb_false_r. reflexivity.
Qed.

(** X19: an event about one tab leaves every other tab where it is, in
    every platform set; and a removed tab is in no set. *)
Theorem tab_events_are_local (tabs : PlatformTabs) (e : TabEvent)
    (p : Platform) (t : Z) :
  t <> eventTab e ->
  has (onTabEvent tabs e p) t = has (tabs p) t
  /\ has (onRemoved tabs (eventTab e) p) (eventTab e) = false.
Proof.
  intros Hne. apply Z.eqb_neq in Hne. split.
  - destruct e as [tabId changeInfo tabUrl | tabId tabUrl | tabId];
      cbn [onTabEvent eventTab] in *.
    + unfold onUpdated.
      assert (H1 : forall (c : bool) pl,
                 has ((if c then addTo pl tabId tabs else tabs) p) t
                 = has (tabs p) t).
      { intros [|] pl; [|reflexivity]. apply has_addTo_other. exact Hne. }
      destruct (truthy (url changeInfo)); [|apply H1].
      rewrite has_addTo_other by exact Hne.
      match goal with
      | |- has (if ?c then _ else _) t = _ => destruct c
      end; [rewrite has_delete, Hne|]; apply H1.
    + unfold onActivated. destruct (truthy tabUrl); [|reflexivity].
      apply has_addTo_other. exact Hne.
    + unfold onRemoved. destruct (has (tabs p) tabId); [|reflexivity].
      rewrite has_delete, Hne. reflexivity.
  - unfold onRemoved. destruct (has (tabs p) (eventTab e)) eqn:E; [|exact E].
    rewrite has_delete, Z.eqb_refl. reflexivity.
Qed.

(** X19 at work: tab 8 stays on YouTube when tab 7 is removed. *)
Lemma tab_events_are_local_witness :
  has (onTabEvent (addTo (Some youtube) 8 (addTo (Some youtube) 7 noTabs))
         (Removed 7) youtube) 8 = true
  /\ has (onTabEvent (addTo (Some youtube) 8 (addTo (Some youtube) 7 noTabs))
            (Removed 7) youtube) 7 = false.
Proof.
  destruct (tab_events_are_local
              (addTo (Some youtube) 8 (addTo (Some youtube) 7 noTabs))
              (Removed 7) youtube 8) as [H1 H2]; [discriminate|].
  split; [rewrite H1; reflexivity | exact H2].
Defined.

End BackgroundFacts.

(** * The content script around the detector: proofs *)

Module ContentScriptFacts.

Import ContentScript.

Lemma monitors_refl (pg : Page) : monitors pg pg [].
Proof. unfold monitors. cbn. repeat split; auto. Qed.

Lemma monitors_trans (pg1 pg2 pg3 : Page) (ms1 ms2 : list Background.Request) :
  monitors pg1 pg2 ms1 -> monitors pg2 pg3 ms2 ->
  monitors pg1 pg3 (ms1 ++ ms2).
Proof.
  intros (N1 & L1 & F1) (N2 & L2 & F2). unfold monitors.
  rewrite length_app. repeat split; [auto | lia | apply Forall_app; auto].
Qed.

Lemma hasDetector_false (pg : Page) (video : nat) :
  hasDetector pg video = false -> ~ In video (map fst (detectors pg)).
Proof.
  unfold hasDetector. intros H Hin. apply in_map_iff in Hin.
  destruct Hin as (entry & Hfst & Hin).
  assert (E : existsb (fun entry => Nat.eqb (fst entry) video) (detectors pg)
              = true).
  { apply existsb_exists. exists entry. split; [exact Hin|].
    apply Nat.eqb_eq. exact Hfst. }
  congruence.
Qed.

Lemma initializeDetector_monitors (pg : Page) (video : nat) (rs : N)
    (v : Video) :
  monitors pg (fst (initializeDetector pg video rs v))
    (snd (initializeDetector pg video rs v)).
Proof.
  unfold initializeDetector.
  destruct (hasDetector pg video) eqn:Eh; [apply monitors_refl|].
  destruct (rs <? 2)%N;
    [unfold monitors; cbn; repeat split; auto|].
  unfold monitors. cbn [fst snd detectors].
  rewrite map_app, length_app. cbn [map fst length].
  repeat split.
  - intros Hnd. apply NoDup_app.
    + exact Hnd.
    + repeat constructor. intros [].
    + intros a Ha [E|[]]. subst a. apply (hasDetector_false pg video Eh Ha).
  - constructor; [reflexivity | constructor].
Qed.

Lemma findAndMonitorVideos_monitors (videos : list VideoElement) (pg : Page) :
  monitors pg (fst (findAndMonitorVideos pg videos))
    (snd (findAndMonitorVideos pg videos)).
Proof.
  revert pg. induction videos as [|e videos IH]; intros pg.
  - apply monitors_refl.
  - cbn [findAndMonitorVideos].
    pose proof (initializeDetector_monitors pg (element e) (readyState e)
                  (videoState e)) as H1.
    destruct (initializeDetector pg (element e) (readyState e) (videoState e))
      as [pg1 ms1].
    specialize (IH pg1). destruct (findAndMonitorVideos pg1 videos)
      as [pg2 ms2].
    exact (monitors_trans _ _ _ _ _ H1 IH).
Qed.

Lemma callListeners_monitors (n : nat) (pg : Page) (e : VideoElement) :
  monitors pg (fst (callListeners n pg e)) (snd (callListeners n pg e)).
Proof.
  revert pg. induction n as [|n IH]; intros pg.
  - apply monitors_refl.
  - cbn [callListeners].
    pose proof (initializeDetector_monitors pg (element e) (readyState e)
                  (videoState e)) as H1.
    destruct (initializeDetector pg (element e) (readyState e) (videoState e))
      as [pg1 ms1].
    specialize (IH pg1). destruct (callListeners n pg1 e) as [pg2 ms2].
    exact (monitors_trans _ _ _ _ _ H1 IH).
Qed.

Lemma onPageEvent_monitors (pg : Page) (ev : PageEvent) :
  monitors pg (fst (onPageEvent pg ev)) (snd (onPageEvent pg ev)).
Proof.
  destruct ev as [videos|e]; cbn [onPageEvent].
  - apply findAndMonitorVideos_monitors.
  - unfold loadedmetadata.
    pose proof (callListeners_monitors
                  (count_occ Nat.eq_dec (waiting pg) (element e))
                  {| detectors := detectors pg;
                     waiting := remove Nat.eq_dec (element e) (waiting pg) |}
                  e) as H.
    exact H.
Qed.

Lemma runPage_monitors (evs : list PageEvent) (pg : Page) :
  monitors pg (fst (runPage pg evs)) (snd (runPage pg evs)).
Proof.
  revert pg. induction evs as [|ev evs IH]; intros pg.
  - apply monitors_refl.
  - cbn [runPage]. pose proof (onPageEvent_monitors pg ev) as H1.
    destruct (onPageEvent pg ev) as [pg1 ms1].
    specialize (IH pg1). destruct (runPage pg1 evs) as [pg2 ms2].
    exact (monitors_trans _ _ _ _ _ H1 IH).
Qed.

Lemma Forall_eq_repeat {A : Type} (x : A) (l : list A) :
  Forall (fun y => y = x) l -> l = repeat x (length l).
Proof.
  induction 1 as [|y l Hy _ IH]; [reflexivity|].
  cbn [length repeat]. rewrite Hy, <- IH. reflexivity.
Qed.

(** X20: however often the document is scanned and whenever the metadata
    of its videos load, the content script creates at most one detector
    per video element and sends exactly one [videoMonitored] message per
    detector, and no other message. *)
Theorem one_detector_per_video (evs : list PageEvent) :
  let pg := fst (runPage emptyPage evs) in
  NoDup (map fst (detectors pg))
  /\ snd (runPage emptyPage evs)
     = repeat videoMonitored (length (detectors pg)).
Proof.
  cbv zeta. destruct (runPage_monitors evs emptyPage) as (Hnd & Hlen & Hall).
  split.
  - apply Hnd. constructor.
  - cbn [emptyPage detectors length Nat.add] in Hlen. rewrite Hlen.
    apply Forall_eq_repeat. exact Hall.
Qed.

Lemma videoMonitored_counted (n : nat) (s : Background.Storage) :
  Background.statsOrZero
    (Background.localArea
       (Background.onMessages s (repeat videoMonitored n)))
  = {| Background.videosMonitored :=
         Background.videosMonitored
           (Background.statsOrZero (Background.localArea s)) + N.of_nat n;
       Background.warningsIssued :=
         Background.warningsIssued
           (Background.statsOrZero (Background.localArea s));
       Background.flashesDetected :=
         Background.flashesDetected
           (Background.statsOrZero (Background.localArea s)) |}.
Proof.
  revert s. induction n as [|n IH]; intros s.
  - cbn [repeat Background.onMessages fold_left].
    destruct (Background.statsOrZero (Background.localArea s)).
    cbn. f_equal. lia.
  - cbn [repeat]. unfold Background.onMessages. cbn [fold_left].
    fold (Background.onMessages
            (fst (Background.onMessage s videoMonitored))
            (repeat videoMonitored n)).
    rewrite IH.
    assert (E : Background.statsOrZero
                  (Background.localArea
                     (fst (Background.onMessage s videoMonitored)))
                = Background.applyUpdate
                    (Background.statsOrZero (Background.localArea s))
                    videoMonitored) by reflexivity.
    rewrite E.
    destruct (Background.statsOrZero (Background.localArea s)) as [vm wi fd].
    unfold Background.applyUpdate.
    cbn [Background.stat videoMonitored String.eqb Ascii.eqb Bool.eqb
         Background.videosMonitored Background.warningsIssued
         Background.flashesDetected].
    f_equal. lia.
Qed.

(** X21: the statistics count every monitored video once.  Whatever
    happens on a page, once the service worker has handled the messages of
    the content script, [videosMonitored] has grown by the number of
    detectors that the page holds, and the other two counters are what they
    were. *)
Theorem monitored_videos_are_counted_once (evs : list PageEvent)
    (s : Background.Storage) :
  let pg := fst (runPage emptyPage evs) in
  let st := Background.statsOrZero (Background.localArea s) in
  let st' :=
    Background.statsOrZero
      (Background.localArea
         (Background.onMessages s (snd (runPage emptyPage evs)))) in
  Background.videosMonitored st'
  = (Background.videosMonitored st + N.of_nat (length (detectors pg)))%N
  /\ Background.warningsIssued st' = Background.warningsIssued st
  /\ Background.flashesDetected st' = Background.flashesDetected st.
Proof.
  cbv zeta. destruct (runPage_monitors evs emptyPage) as (_ & Hlen & Hall).
  cbn [emptyPage detectors length Nat.add] in Hlen.
  rewrite (Forall_eq_repeat _ _ Hall), videoMonitored_counted, <- Hlen.
  cbn. repeat split.
Qed.

End ContentScriptFacts.
